(** * The session client of the forensic tool's web front end

    A shallow embedding of [SessionManager] (frontend/src/config/api.js):
    [getSessionId], [logInteraction], [getHistory], [updateContext] and
    [clearSession], together with the parts of the browser they touch:
    [localStorage], [fetch], [Response.ok], [Response.json] and [console.error].

    Every [async] method is a computation in a state-and-exception monad over
    a [World]: the contents of [localStorage], the requests sent so far and
    the console.  [await] is sequencing; one call runs to completion, calls
    that interleave are outside the model.  The remote service is an arbitrary
    function from the requests seen so far and the current request to what
    [fetch] observes.

    Assumptions of the model: [localStorage] is available and its methods
    do not throw; the arguments callers pass are plain data (what
    [JSON.parse] can produce) or [undefined]; the methods are called on
    [SessionManager] itself, so [this.getSessionId] is [getSessionId]. *)

From stdpp Require Import gmap strings list fin_maps pretty.

Local Open Scope string_scope.
Local Open Scope list_scope.
Local Set Warnings "-register-all".

(** ** JavaScript values *)

(** What the code needs of a JavaScript number: its truthiness (zero and NaN
    are falsy), its [String(n)] form, whether [JSON.stringify] keeps it
    (NaN and the infinities become [null]) and the literals of the source. *)
Class Number (num : Type) := {
  num_truthy : num -> bool;
  num_to_string : num -> string;
  num_finite : num -> bool;
  num_of_N : N -> num
}.

(** Integers as numbers; [String(n)] is the decimal form below 10^21. *)
#[export] Instance Z_Number : Number Z := {
  num_truthy z := negb (Z.eqb z 0);
  num_to_string z := pretty z;
  num_finite _ := true;
  num_of_N n := Z.of_N n
}.

(** Plain data: what [JSON.parse] produces and what callers pass in.  An
    object keeps its own properties in insertion order. *)
Inductive json (num : Type) : Type :=
  | JNull
  | JBool (b : bool)
  | JNum (n : num)
  | JStr (s : string)
  | JArr (items : list (json num))
  | JObj (fields : list (string * json num)).

Arguments JNull {num}.
Arguments JBool {num} b.
Arguments JNum {num} n.
Arguments JStr {num} s.
Arguments JArr {num} items.
Arguments JObj {num} fields.

(** A value a variable may hold: [None] is [undefined]. *)
Definition jsval (num : Type) : Type := option (json num).

Definition null {num} : jsval num := Some JNull.
Definition undefined {num} : jsval num := None.

(** The exceptions the code can meet: [fetch] rejects with a network error,
    [Response.json] with a syntax error, and reading a property of [null]
    is a type error. *)
Inductive exn : Type := NetworkError | SyntaxError | TypeError.

Section Values.
Context {num : Type} `{Number num}.

(** [ToBoolean]. *)
Definition truthy_str (s : string) : bool :=
  match s with "" => false | _ => true end.

Definition truthy (v : jsval num) : bool :=
  match v with
  | None => false
  | Some JNull => false
  | Some (JBool b) => b
  | Some (JNum n) => num_truthy n
  | Some (JStr s) => truthy_str s
  | Some (JArr _) => true
  | Some (JObj _) => true
  end.

(** [ToString], as template literals and [Storage.setItem] apply it: an
    array is its elements joined by commas, a [null] element being empty. *)
Fixpoint to_string (v : json num) : string :=
  match v with
  | JNull => "null"
  | JBool true => "true"
  | JBool false => "false"
  | JNum n => num_to_string n
  | JStr s => s
  | JArr items =>
      String.concat ","
        (map (fun x => match x with JNull => "" | _ => to_string x end) items)
  | JObj _ => "[object Object]"
  end.

Definition to_string_val (v : jsval num) : string :=
  match v with
  | None => "undefined"
  | Some x => to_string x
  end.

(** [a || b]. *)
Definition or_else (a b : jsval num) : jsval num :=
  if truthy a then a else b.

(** A parameter with a default [= d]: [undefined] takes the default. *)
Definition default_arg (a : jsval num) (d : json num) : json num :=
  match a with
  | None => d
  | Some x => x
  end.

Fixpoint lookup_field (k : string) (fields : list (string * json num))
  : jsval num :=
  match fields with
  | [] => None
  | (k', v) :: rest => if String.eqb k k' then Some v else lookup_field k rest
  end.

(** [data.k] for a name [k] that no built-in prototype defines, such as
    the two the source reads ([session_id], [history]): a type error on
    [null], the own property of an object, [undefined] elsewhere. *)
Definition get_prop (data : json num) (k : string) : exn + jsval num :=
  match data with
  | JNull => inl TypeError
  | JObj fields => inr (lookup_field k fields)
  | _ => inr None
  end.

(** What [JSON.stringify] transmits of a plain value: numbers that are
    not finite become [null]. *)
Fixpoint transmitted (v : json num) : json num :=
  match v with
  | JNum n => if num_finite n then JNum n else JNull
  | JArr items => JArr (map transmitted items)
  | JObj fields => JObj (map (fun kv => (fst kv, transmitted (snd kv))) fields)
  | other => other
  end.

(** [JSON.stringify({k1: v1, ...})]: properties whose value is
    [undefined] are left out. *)
Fixpoint kept_props (props : list (string * jsval num))
  : list (string * json num) :=
  match props with
  | [] => []
  | (k, None) :: rest => kept_props rest
  | (k, Some v) :: rest => (k, transmitted v) :: kept_props rest
  end.

Definition stringify_object (props : list (string * jsval num)) : json num :=
  JObj (kept_props props).
End Values.

(** ** The browser and the remote service *)

Inductive Method : Type := GET | POST | PUT.

(** A request as [fetch] receives it.  [body] is the value handed to
    [JSON.stringify], as transmitted; a request without options is a [GET]
    with no headers and no body. *)
Record Request (num : Type) : Type := mkRequest {
  method : Method;
  url : string;
  headers : list (string * string);
  body : option (json num)
}.

Arguments mkRequest {num}.
Arguments method {num}.
Arguments url {num}.
Arguments headers {num}.
Arguments body {num}.

(** A response: its status code and what [Response.json] makes of its
    body, [None] when the body does not parse. *)
Record Response (num : Type) : Type := mkResponse {
  status : N;
  parsed : option (json num)
}.

Arguments mkResponse {num}.
Arguments status {num}.
Arguments parsed {num}.

(** [Response.ok]: a status from 200 to 299. *)
Definition ok {num} (r : Response num) : bool :=
  (200 <=? status r)%N && (status r <=? 299)%N.

(** What one [fetch] observes: the promise rejects, or a response arrives. *)
Inductive Outcome (num : Type) : Type :=
  | Rejected
  | Responded (r : Response num).

Arguments Rejected {num}.
Arguments Responded {num} r.

(** The remote service and the network in front of it: any function of the
    requests sent so far and the current one. *)
Definition Server (num : Type) : Type :=
  list (Request num) -> Request num -> Outcome num.

Record World (num : Type) : Type := mkWorld {
  localStorage : gmap string string;
  sent : list (Request num);
  console : list (string * exn)
}.

Arguments mkWorld {num}.
Arguments localStorage {num}.
Arguments sent {num}.
Arguments console {num}.

(** ** The monad of the [async] methods *)

Definition M (num A : Type) : Type := World num -> (exn + A) * World num.

Definition ret {num A} (a : A) : M num A := fun w => (inr a, w).

Definition throw {num A} (e : exn) : M num A := fun w => (inl e, w).

Definition bind {num A B} (m : M num A) (k : A -> M num B) : M num B :=
  fun w =>
    match m w with
    | (inl e, w') => (inl e, w')
    | (inr a, w') => k a w'
    end.

(** [try { m } catch (error) { h error }]. *)
Definition try_catch {num A} (m : M num A) (h : exn -> M num A) : M num A :=
  fun w =>
    match m w with
    | (inl e, w') => h e w'
    | (inr a, w') => (inr a, w')
    end.

Definition lift {num A} (r : exn + A) : M num A := fun w => (r, w).

Notation "'let*' x := m 'in' k" := (bind m (fun x => k))
  (at level 10, x name, m at level 100, k at level 200).
Notation "'do' m 'then' k" := (bind m (fun _ => k))
  (at level 10, m at level 100, k at level 200).

(** [n] calls of [m], one after the other, with their results in order. *)
Fixpoint repeatedly {num A} (n : nat) (m : M num A) : M num (list A) :=
  match n with
  | O => ret []
  | S k =>
      let* x := m in
      let* xs := repeatedly k m in
      ret (x :: xs)
  end.

Section Browser.
Context {num : Type}.

(** The three ways a world changes. *)
Definition stored (k v : string) (w : World num) : World num :=
  mkWorld (<[k := v]> (localStorage w)) (sent w) (console w).

Definition requested (req : Request num) (w : World num) : World num :=
  mkWorld (localStorage w) (sent w ++ [req]) (console w).

Definition logged (msg : string) (e : exn) (w : World num) : World num :=
  mkWorld (localStorage w) (sent w) (console w ++ [(msg, e)]).

Definition getItem (k : string) : M num (option string) :=
  fun w => (inr (localStorage w !! k), w).

Definition setItem (k v : string) : M num unit :=
  fun w => (inr tt, stored k v w).

Definition removeItem (k : string) : M num unit :=
  fun w => (inr tt, mkWorld (delete k (localStorage w)) (sent w) (console w)).

Definition console_error (msg : string) (e : exn) : M num unit :=
  fun w => (inr tt, logged msg e w).

(** [await fetch(...)]: the request goes out, then the service decides. *)
Definition fetch (server : Server num) (req : Request num)
  : M num (Response num) :=
  fun w =>
    match server (sent w) req with
    | Rejected => (inl NetworkError, requested req w)
    | Responded r => (inr r, requested req w)
    end.

(** [await response.json()]. *)
Definition response_json (r : Response num) : M num (json num) :=
  match parsed r with
  | Some data => ret data
  | None => throw SyntaxError
  end.
End Browser.

(** ** API configuration and [SessionManager] *)

Section SessionManager.
Context {num : Type} `{Number num}.

(** [import.meta.env.VITE_API_URL], unset or a string. *)
Variable VITE_API_URL : option string.
Variable server : Server num.

Definition API_URL : string :=
  match VITE_API_URL with
  | Some s => if truthy_str s then s else "http://localhost:8086"
  | None => "http://localhost:8086"
  end.

Definition SESSIONS : string := API_URL +:+ "/api/sessions".

Definition SESSION_BY_ID (sessionId : jsval num) : string :=
  API_URL +:+ "/api/sessions/" +:+ to_string_val sessionId.

Definition SESSION_HISTORY (sessionId : jsval num) : string :=
  API_URL +:+ "/api/sessions/" +:+ to_string_val sessionId +:+ "/history".

Definition SESSION_INTERACTIONS (sessionId : jsval num) : string :=
  API_URL +:+ "/api/sessions/" +:+ to_string_val sessionId +:+ "/interactions".

Definition SESSION_CONTEXT (sessionId : jsval num) : string :=
  API_URL +:+ "/api/sessions/" +:+ to_string_val sessionId +:+ "/context".

Definition SESSION_STORAGE_KEY : string := "forensic_tool_session_id".

Definition json_headers : list (string * string) :=
  [("Content-Type", "application/json")].

(** [fetch(u)]. *)
Definition plain_get (u : string) : Request num := mkRequest GET u [] None.

(** The request of lines 47-51. *)
Definition create_request : Request num :=
  mkRequest POST SESSIONS json_headers
    (Some (stringify_object [("user_id", Some (JStr "web_user"))])).

(** Lines 46-60: create a new session. *)
Definition create_session : M num (jsval num) :=
  let* response := fetch server create_request in
  if ok response then
    let* data := response_json response in
    let* sessionId := lift (get_prop data "session_id") in
    do setItem SESSION_STORAGE_KEY (to_string_val sessionId) then
    ret sessionId
  else ret null.

(** [localStorage.getItem] as a value: the string, or [null]. *)
Definition stored_value (o : option string) : jsval num :=
  match o with
  | Some s => Some (JStr s)
  | None => null
  end.

Definition getSessionId : M num (jsval num) :=
  try_catch
    (let* stored := getItem SESSION_STORAGE_KEY in
     let sessionId := stored_value stored in
     if truthy sessionId then
       let* response := fetch server (plain_get (SESSION_BY_ID sessionId)) in
       if ok response then ret sessionId else create_session
     else create_session)
    (fun error =>
       do console_error "Error managing session:" error then
       ret null).

Definition interaction_request
    (sessionId interactionType : jsval num) (query results metadata : json num)
  : Request num :=
  mkRequest POST (SESSION_INTERACTIONS sessionId) json_headers
    (Some (stringify_object
             [("interaction_type", interactionType);
              ("query", Some query);
              ("results", Some results);
              ("metadata", Some metadata)])).

Definition logInteraction (interactionType query results metadata : jsval num)
  : M num bool :=
  let query := default_arg query JNull in
  let results := default_arg results JNull in
  let metadata := default_arg metadata JNull in
  try_catch
    (let* sessionId := getSessionId in
     if negb (truthy sessionId) then ret false
     else
       let* response :=
         fetch server
           (interaction_request sessionId interactionType query results metadata) in
       ret (ok response))
    (fun error =>
       do console_error "Error logging interaction:" error then
       ret false).

Definition history_request (sessionId : jsval num) (limit : json num)
  : Request num :=
  plain_get (SESSION_HISTORY sessionId +:+ "?limit=" +:+ to_string limit).

Definition empty_array : jsval num := Some (JArr []).

Definition getHistory (limit : jsval num) : M num (jsval num) :=
  let limit := default_arg limit (JNum (num_of_N 50)) in
  try_catch
    (let* sessionId := getSessionId in
     if negb (truthy sessionId) then ret empty_array
     else
       let* response := fetch server (history_request sessionId limit) in
       if ok response then
         let* data := response_json response in
         let* history := lift (get_prop data "history") in
         ret (or_else history empty_array)
       else ret empty_array)
    (fun error =>
       do console_error "Error getting history:" error then
       ret empty_array).

Definition context_request (sessionId contextData : jsval num) : Request num :=
  mkRequest PUT (SESSION_CONTEXT sessionId) json_headers
    (Some (stringify_object [("context_data", contextData)])).

Definition updateContext (contextData : jsval num) : M num bool :=
  try_catch
    (let* sessionId := getSessionId in
     if negb (truthy sessionId) then ret false
     else
       let* response := fetch server (context_request sessionId contextData) in
       ret (ok response))
    (fun error =>
       do console_error "Error updating context:" error then
       ret false).

Definition clearSession : M num unit :=
  removeItem SESSION_STORAGE_KEY.
End SessionManager.

(** ** The runs of the operations *)

Section Runs.
Context {num : Type} `{Number num}.
Variable VITE_API_URL : option string.
Variable server : Server num.

Abbreviation KEY := SESSION_STORAGE_KEY.
Abbreviation create := (create_request VITE_API_URL).
Abbreviation validation s :=
  (plain_get (SESSION_BY_ID VITE_API_URL (Some (JStr s)))).
Abbreviation session_error := "Error managing session:".

(** The ways lines 46-60 end inside the [try] of [getSessionId], started in
    world [w]: the value returned and the world left behind. *)
Inductive create_run (w : World num) : jsval num -> World num -> Prop :=
  | Create_rejected :
      server (sent w) create = Rejected ->
      create_run w null (logged session_error NetworkError (requested create w))
  | Create_refused r :
      server (sent w) create = Responded r ->
      ok r = false ->
      create_run w null (requested create w)
  | Create_unparsed r :
      server (sent w) create = Responded r ->
      ok r = true ->
      parsed r = None ->
      create_run w null (logged session_error SyntaxError (requested create w))
  | Create_no_object r data e :
      server (sent w) create = Responded r ->
      ok r = true ->
      parsed r = Some data ->
      get_prop data "session_id" = inl e ->
      create_run w null (logged session_error e (requested create w))
  | Create_done r data v :
      server (sent w) create = Responded r ->
      ok r = true ->
      parsed r = Some data ->
      get_prop data "session_id" = inr v ->
      create_run w v (stored KEY (to_string_val v) (requested create w)).

(** The ways [getSessionId] ends. *)
Inductive session_run (w : World num) : jsval num -> World num -> Prop :=
  | Run_unreachable s :
      localStorage w !! KEY = Some s ->
      truthy_str s = true ->
      server (sent w) (validation s) = Rejected ->
      session_run w null
        (logged session_error NetworkError (requested (validation s) w))
  | Run_valid s r :
      localStorage w !! KEY = Some s ->
      truthy_str s = true ->
      server (sent w) (validation s) = Responded r ->
      ok r = true ->
      session_run w (Some (JStr s)) (requested (validation s) w)
  | Run_stale s r v w' :
      localStorage w !! KEY = Some s ->
      truthy_str s = true ->
      server (sent w) (validation s) = Responded r ->
      ok r = false ->
      create_run (requested (validation s) w) v w' ->
      session_run w v w'
  | Run_fresh v w' :
      truthy (stored_value (localStorage w !! KEY)) = false ->
      create_run w v w' ->
      session_run w v w'.

(** What [logInteraction] does once [getSessionId] has returned [sessionId]
    in world [w1]. *)
Definition append_step (sessionId interactionType query results metadata : jsval num)
    (w1 : World num) : (exn + bool) * World num :=
  let req :=
    interaction_request VITE_API_URL sessionId interactionType
      (default_arg query JNull) (default_arg results JNull)
      (default_arg metadata JNull) in
  if truthy sessionId then
    match server (sent w1) req with
    | Rejected =>
        (inr false, logged "Error logging interaction:" NetworkError (requested req w1))
    | Responded r => (inr (ok r), requested req w1)
    end
  else (inr false, w1).

(** What [getHistory] does once [getSessionId] has returned. *)
Definition history_step (sessionId limit : jsval num) (w1 : World num)
  : (exn + jsval num) * World num :=
  let req :=
    history_request VITE_API_URL sessionId
      (default_arg limit (JNum (num_of_N 50))) in
  let failed e := (inr empty_array, logged "Error getting history:" e (requested req w1)) in
  if truthy sessionId then
    match server (sent w1) req with
    | Rejected => failed NetworkError
    | Responded r =>
        if ok r then
          match parsed r with
          | None => failed SyntaxError
          | Some data =>
              match get_prop data "history" with
              | inl e => failed e
              | inr history => (inr (or_else history empty_array), requested req w1)
              end
          end
        else (inr empty_array, requested req w1)
    end
  else (inr empty_array, w1).

(** What [updateContext] does once [getSessionId] has returned. *)
Definition context_step (sessionId contextData : jsval num) (w1 : World num)
  : (exn + bool) * World num :=
  let req := context_request VITE_API_URL sessionId contextData in
  if truthy sessionId then
    match server (sent w1) req with
    | Rejected =>
        (inr false, logged "Error updating context:" NetworkError (requested req w1))
    | Responded r => (inr (ok r), requested req w1)
    end
  else (inr false, w1).

(** *** Failure semantics *)
(** [fetch] rejects, or the response is not 2xx. *)
Definition refused (o : Outcome num) : Prop :=
  match o with
  | Rejected => True
  | Responded r => ok r = false
  end.

(** As [refused], or the response is 2xx and its body does not parse: the
    failures of a request whose body the code reads. *)
Definition undelivered (o : Outcome num) : Prop :=
  match o with
  | Rejected => True
  | Responded r => ok r = false \/ parsed r = None
  end.

(** No stored id gets validated and no session gets created. *)
Definition session_unavailable : Prop :=
  (forall h s, refused (server h (validation s))) /\
  (forall h, undelivered (server h create)).

Definition append_unavailable : Prop :=
  forall h sid k q r m,
    refused (server h (interaction_request VITE_API_URL sid k q r m)).

Definition history_unavailable : Prop :=
  forall h sid limit,
    undelivered (server h (history_request VITE_API_URL sid limit)).

Definition context_unavailable : Prop :=
  forall h sid c, refused (server h (context_request VITE_API_URL sid c)).

(** Session resolution fails in world [w], on the requests the code makes
    there: the validation of the stored id is rejected by the network; or it
    is answered non-2xx (or no id is stored) and the create request that
    follows is rejected, answered non-2xx, or answered with a body that does
    not parse. *)
Definition session_fails (w : World num) : Prop :=
  match localStorage w !! KEY with
  | Some s =>
      if truthy_str s then
        match server (sent w) (validation s) with
        | Rejected => True
        | Responded r =>
            ok r = false /\
            undelivered (server (sent w ++ [validation s]) create)
        end
      else undelivered (server (sent w) create)
  | None => undelivered (server (sent w) create)
  end.

(** *** Identifiers *)

(** A non-empty string, or [null]. *)
Definition id_or_none (v : jsval num) : Prop :=
  v = null \/ exists s, v = Some (JStr s) /\ s <> "".

(** The service keeps to its contract for session creation: the
    [session_id] of a 2xx body is a non-empty string. *)
Definition create_contract : Prop :=
  forall h r data v,
    server h create = Responded r ->
    ok r = true ->
    parsed r = Some data ->
    get_prop data "session_id" = inr v ->
    exists s, v = Some (JStr s) /\ s <> "".

(** The service confirms the stored id [s] whenever asked. *)
Definition confirms (s : string) : Prop :=
  forall h, exists r, server h (validation s) = Responded r /\ ok r = true.

(** *** Kinds of request *)

(** A session-create request: a [POST] to [API_ENDPOINTS.SESSIONS]. *)
Definition is_create (req : Request num) : bool :=
  match method req with
  | POST => String.eqb (url req) (SESSIONS VITE_API_URL)
  | _ => false
  end.

Definition creations (reqs : list (Request num)) : nat :=
  length (List.filter is_create reqs).

(** An append request: a [POST] to the interactions of some session. *)
Definition is_append (req : Request num) : Prop :=
  method req = POST /\
  exists sid, url req = SESSION_INTERACTIONS VITE_API_URL sid.

Definition web_user_body : option (json num) :=
  Some (JObj [("user_id", JStr "web_user")]).

(** If [req] creates a session, it does so for [web_user]. *)
Definition carries_web_user (req : Request num) : Prop :=
  is_create req = true -> body req = web_user_body.

(** The requests of session resolution. *)
Inductive session_request : Request num -> Prop :=
  | Is_validation s : session_request (validation s)
  | Is_create : session_request create.

(** The requests a computation adds to those already sent. *)
Definition issues {A} (m : M num A) (w : World num) (new : list (Request num))
  : Prop :=
  sent (snd (m w)) = sent w ++ new.

(** The append request of [logInteraction(kind, query, results, metadata)]
    for session [sid]: the four fields, an omitted argument being [null]. *)
Definition append_request (sid : jsval num) (kind : json num)
    (query results metadata : jsval num) : Request num :=
  mkRequest POST (SESSION_INTERACTIONS VITE_API_URL sid)
    [("Content-Type", "application/json")]
    (Some (JObj [("interaction_type", transmitted kind);
                 ("query", transmitted (default_arg query JNull));
                 ("results", transmitted (default_arg results JNull));
                 ("metadata", transmitted (default_arg metadata JNull))])).

(** *** History bodies *)

(** The parsed body has no usable [history]: reading it fails, or it is
    missing or falsy. *)
Definition lacks_history (data : json num) : Prop :=
  match get_prop data "history" with
  | inl _ => True
  | inr h => truthy h = false
  end.

Definition is_array (v : jsval num) : Prop :=
  exists items, v = Some (JArr items).
End Runs.

(** ** Concrete browsers and services *)

Definition fresh_browser : World Z := mkWorld ∅ [] [].

Definition browser_with_id (s : string) : World Z :=
  mkWorld {[SESSION_STORAGE_KEY := s]} [] [].

(** Nothing reaches the service. *)
Definition unreachable : Server Z := fun _ _ => Rejected.

(** The first request is answered 200, every later one 404. *)
Definition first_only : Server Z :=
  fun h _ =>
    match h with
    | [] => Responded (mkResponse 200 (Some (JObj [])))
    | _ => Responded (mkResponse 404 None)
    end.

(** Reads are cut off, writes get through and sessions can be created. *)
Definition reads_cut_off : Server Z :=
  fun _ req =>
    match method req with
    | GET => Rejected
    | _ => Responded (mkResponse 200 (Some (JObj [("session_id", JStr "s2")])))
    end.

(** A service that answers by method alone. *)
Definition by_method (on_get on_post on_put : Response Z) : Server Z :=
  fun _ req =>
    match method req with
    | GET => Responded on_get
    | POST => Responded on_post
    | PUT => Responded on_put
    end.

Definition no_content : Response Z := mkResponse 204 None.

Definition not_found : Response Z := mkResponse 404 None.

Definition json_reply (data : json Z) : Response Z := mkResponse 200 (Some data).

Definition session_reply (id : json Z) : Response Z :=
  json_reply (JObj [("session_id", id)]).

Definition history_reply (history : json Z) : Response Z :=
  json_reply (JObj [("history", history)]).

(** * Further definitions: the rest of [SessionManager] *)

Section MoreRuns.
Context {num : Type} `{Number num}.
Variable VITE_API_URL : option string.
Variable server : Server num.

(** The request of [updateContext(contextData)] for session [sid]: a [PUT]
    whose body has the one field [context_data], left out when the argument
    is [undefined]. *)
Definition put_request (sid contextData : jsval num) : Request num :=
  mkRequest PUT (SESSION_CONTEXT VITE_API_URL sid)
    [("Content-Type", "application/json")]
    (Some (JObj match contextData with
                | None => []
                | Some c => [("context_data", transmitted c)]
                end)).

(** The service answers request [req], sent after [h], with a 2xx response. *)
Definition accepted (h : list (Request num)) (req : Request num) : Prop :=
  exists r, server h req = Responded r /\ ok r = true.

(** What [getSessionId] logs, given what its last request [req] met:
    a network error when the request was rejected; nothing after a non-2xx
    answer; nothing after a 2xx answer to the validation (a [GET]); and after
    a 2xx answer to the create request (a [POST]) a syntax error when the
    body does not parse, a type error when it is [null], nothing
    otherwise. *)
Definition logs_as_met (o : Outcome num) (req : Request num)
    (before after : list (string * exn)) : Prop :=
  (o = Rejected ->
   after = before ++ [("Error managing session:", NetworkError)]) /\
  (forall r, o = Responded r -> ok r = false -> after = before) /\
  (forall r, o = Responded r -> ok r = true -> method req = GET ->
   after = before) /\
  (forall r, o = Responded r -> ok r = true -> method req = POST ->
   after = before ++
     match parsed r with
     | None => [("Error managing session:", SyntaxError)]
     | Some JNull => [("Error managing session:", TypeError)]
     | Some _ => []
     end).

(** Every key but the session key holds what it held. *)
Definition same_elsewhere (w w' : World num) : Prop :=
  forall k, k <> SESSION_STORAGE_KEY -> localStorage w' !! k = localStorage w !! k.
End MoreRuns.

(** * The callers of [SessionManager] *)

(** ** What the pages share *)

(** What [axios] hands to a page when a request fails: the value of
    [error.response?.data?.detail] and of [error.message]. *)
Record JsError (num : Type) : Type := mkJsError {
  err_detail : jsval num;
  err_message : jsval num
}.

Arguments mkJsError {num}.
Arguments err_detail {num}.
Arguments err_message {num}.

(** One [axios] request as the page sees it: it throws (network failure,
    time-out, a status outside 2xx), or it yields [response.data]. *)
Inductive AxiosOutcome (num : Type) : Type :=
  | Axios_error (e : JsError num)
  | Axios_data (data : json num).

Arguments Axios_error {num} e.
Arguments Axios_data {num} data.

(** A call [SessionManager.logInteraction(kind, query, results)] that a page
    starts and does not await. *)
Record Launched (num : Type) : Type := mkLaunched {
  l_kind : jsval num;
  l_query : jsval num;
  l_results : jsval num
}.

Arguments mkLaunched {num}.
Arguments l_kind {num}.
Arguments l_query {num}.
Arguments l_results {num}.

Section Pages.
Context {num : Type} `{Number num}.

(** [s.length] of a string, in UTF-16 code units. *)
Variable utf16_length : string -> N.

Definition number (n : N) : jsval num := Some (JNum (num_of_N n)).

(** [data.length]: a type error on [null] and [undefined], the number of
    elements of an array, the length of a string, the own property of an
    object, [undefined] elsewhere. *)
Definition get_length (data : jsval num) : exn + jsval num :=
  match data with
  | None => inl TypeError
  | Some JNull => inl TypeError
  | Some (JArr items) => inr (number (N.of_nat (length items)))
  | Some (JStr s) => inr (number (utf16_length s))
  | Some (JObj fields) => inr (lookup_field "length" fields)
  | Some _ => inr None
  end.

(** [v?.length]. *)
Definition optional_length (v : jsval num) : jsval num :=
  match get_length v with
  | inl _ => None
  | inr n => n
  end.

(** An object literal as [JSON.stringify] will see it: a property whose
    value is [undefined] is not transmitted. *)
Fixpoint object_literal (props : list (string * jsval num))
  : list (string * json num) :=
  match props with
  | [] => []
  | (k, None) :: rest => object_literal rest
  | (k, Some v) :: rest => (k, v) :: object_literal rest
  end.

(** [a === b] against a string literal. *)
Definition is_string (v : jsval num) (s : string) : bool :=
  match v with
  | Some (JStr s') => String.eqb s' s
  | _ => false
  end.
End Pages.

(** ** The dashboard (pages/Dashboard.jsx) *)

Module Dashboard.
Section Dashboard.
Context {num : Type} `{Number num}.
Variable utf16_length : string -> N.
Variable VITE_API_URL : option string.
Variable server : Server num.

Record SessionStats : Type := mkStats {
  count : jsval num;
  duration : string
}.

(** The two state variables of the component. *)
Record State : Type := mkState {
  history : jsval num;
  sessionStats : SessionStats
}.

(** [useState([])] and [useState({ count: 0, duration: '0m' })]. *)
Definition initial : State :=
  mkState empty_array (mkStats (number 0) "0m").

Definition setHistory (data : jsval num) (st : State) : State :=
  mkState data (sessionStats st).

Definition setSessionStats (f : SessionStats -> SessionStats) (st : State)
  : State :=
  mkState (history st) (f (sessionStats st)).

(** Lines 11-15: [fetchHistory], run to completion.  [data.length] is read
    when the updater runs. *)
Definition fetchHistory (st : State) : M num State :=
  let* data := getHistory VITE_API_URL server (number 5) in
  let st := setHistory data st in
  let* n := lift (get_length utf16_length data) in
  ret (setSessionStats (fun prev => mkStats n (duration prev)) st).
End Dashboard.
End Dashboard.

(** ** The deepfake page (pages/ModuleC.jsx) *)

Module ModuleC.
Section ModuleC.
Context {num : Type} `{Number num}.

(** The state of the component; a file is its name, a preview its URL. *)
Record State : Type := mkState {
  selectedFile : option string;
  preview : option string;
  loading : bool;
  result : jsval num
}.

(** What [handleCheck] does besides changing the state. *)
Record Effects : Type := mkEffects {
  posted : list string;
  errors : list (JsError num);
  alerts : list string;
  launched : list (Launched num)
}.

Definition DETECT_URL : string := "http://localhost:8086/api/detect-deepfake".

(** The [catch] block. *)
Definition error_message (e : JsError num) : string :=
  to_string_val
    (or_else (or_else (err_detail e) (err_message e))
       (Some (JStr "Unknown error"))).

(** The arguments of the [logInteraction] call of lines 33-37. *)
Definition detection_log (name : string) (is_real confidence : jsval num)
  : Launched num :=
  mkLaunched (Some (JStr "detect"))
    (Some (JStr ("Deepfake Analysis: " +:+ name)))
    (Some (JObj (object_literal
       [("is_deepfake", Some (JBool (negb (truthy is_real))));
        ("authenticity",
         Some (JStr (if truthy is_real then "Real" else "Fake")));
        ("confidence", confidence)]))).

(** [handleCheck], given what the request to the detection endpoint
    yields and the type error the engine raises on [null.is_real]. *)
Definition handleCheck (type_error : JsError num) (outcome : AxiosOutcome num)
    (st : State) : State * Effects :=
  match selectedFile st with
  | None => (st, mkEffects [] [] [] [])
  | Some name =>
      let failed (res : jsval num) (e : JsError num) :=
        (mkState (selectedFile st) (preview st) false res,
         mkEffects [DETECT_URL] [e]
           ["Error checking authenticity: " +:+ error_message e] []) in
      match outcome with
      | Axios_error e => failed (result st) e
      | Axios_data data =>
          match get_prop data "is_real", get_prop data "confidence" with
          | inr is_real, inr confidence =>
              (mkState (selectedFile st) (preview st) false (Some data),
               mkEffects [DETECT_URL] [] []
                 [detection_log name is_real confidence])
          | _, _ => failed (Some data) type_error
          end
      end
  end.

(** What is logged agrees with itself: [is_deepfake] and [authenticity]
    say the same thing. *)
Definition verdict_agrees (l : Launched num) : Prop :=
  exists fields b,
    l_results l = Some (JObj fields) /\
    lookup_field "is_deepfake" fields = Some (JBool b) /\
    lookup_field "authenticity" fields
      = Some (JStr (if b then "Fake" else "Real")).
End ModuleC.
End ModuleC.

(** ** The sketch page (pages/ModuleA.jsx): polling for the job *)

Module ModuleA.
Section ModuleA.
Context {num : Type} `{Number num}.
Variable utf16_length : string -> N.

Inductive ConsoleEntry : Type :=
  | Polling_error (e : JsError num)
  | Job_failed (error : jsval num).

(** The closure variable [attempts], whether the interval is still set, and
    the state, alerts, error log and launched calls of the component.
    [console.log] is left out. *)
Record State : Type := mkState {
  attempts : nat;
  polling : bool;
  loading : bool;
  progress : jsval num;
  sketch : jsval num;
  matches : jsval num;
  alerts : list string;
  errors : list ConsoleEntry;
  launched : list (Launched num)
}.

Definition maxAttempts : nat := 360.

(** The state in which [handleGenerate] sets the interval. *)
Definition started (sketch0 matches0 : jsval num) : State :=
  mkState 0 true true (number 0) sketch0 matches0 [] [] [].

(** The timer fires while the interval is set: [attempts++], and the
    status request goes out. *)
Definition tick (st : State) : State :=
  if polling st then
    mkState (S (attempts st)) (polling st) (loading st) (progress st)
      (sketch st) (matches st) (alerts st) (errors st) (launched st)
  else st.

(** The inner [catch]: the error is logged and nothing else happens. *)
Definition polling_error (e : JsError num) (st : State) : State :=
  mkState (attempts st) (polling st) (loading st) (progress st)
    (sketch st) (matches st) (alerts st) (errors st ++ [Polling_error e])
    (launched st).

(** [data.k] once [data] is known not to be [null]. *)
Definition prop (data : json num) (k : string) : jsval num :=
  match get_prop data k with
  | inl _ => None
  | inr v => v
  end.

(** The arguments of the [logInteraction] call of lines 135-138. *)
Definition generation_log (description : string) (found : jsval num)
  : Launched num :=
  mkLaunched (Some (JStr "generate")) (Some (JStr description))
    (Some (JObj (object_literal
       [("sketch_generated", Some (JBool true));
        ("matches_found", found)]))).

(** The rest of the callback, run when the status request settles; it
    reads [attempts] as it is then. *)
Definition arrive (type_error : JsError num) (description : string)
    (outcome : AxiosOutcome num) (st : State) : State :=
  match outcome with
  | Axios_error e => polling_error e st
  | Axios_data data =>
      match get_prop data "status" with
      | inl _ => polling_error type_error st
      | inr status =>
          let currentProgress := or_else (prop data "progress") (number 0) in
          if is_string status "completed" then
            mkState (attempts st) false false (number 100)
              (prop data "sketch")
              (or_else (prop data "matches") empty_array)
              (alerts st) (errors st)
              (launched st ++
               [generation_log description
                  (or_else (optional_length utf16_length (prop data "matches"))
                     (number 0))])
          else if is_string status "failed" then
            mkState (attempts st) false false currentProgress
              (sketch st) (matches st)
              (alerts st ++
               ["Generation failed: " +:+ to_string_val (prop data "error")])
              (errors st ++ [Job_failed (prop data "error")])
              (launched st)
          else if Nat.leb maxAttempts (attempts st) then
            mkState (attempts st) false false currentProgress
              (sketch st) (matches st)
              (alerts st ++
               ["Generation timed out. Please check backend logs."])
              (errors st) (launched st)
          else
            mkState (attempts st) (polling st) (loading st) currentProgress
              (sketch st) (matches st) (alerts st) (errors st) (launched st)
      end
  end.

Inductive Event : Type :=
  | Tick
  | Arrive (outcome : AxiosOutcome num).

Definition step (type_error : JsError num) (description : string)
    (st : State) (ev : Event) : State :=
  match ev with
  | Tick => tick st
  | Arrive outcome => arrive type_error description outcome st
  end.

Definition run (type_error : JsError num) (description : string)
    (events : list Event) (st : State) : State :=
  fold_left (step type_error description) events st.

(** The timer fires and the answer comes before it fires again. *)
Definition round (type_error : JsError num) (description : string)
    (st : State) (outcome : AxiosOutcome num) : State :=
  arrive type_error description outcome (tick st).

Definition rounds (type_error : JsError num) (description : string)
    (outcomes : list (AxiosOutcome num)) (st : State) : State :=
  fold_left (round type_error description) outcomes st.

(** The request failed, or its data is [null]. *)
Definition unusable (outcome : AxiosOutcome num) : Prop :=
  match outcome with
  | Axios_error _ => True
  | Axios_data data => data = JNull
  end.

Definition harmless (ev : Event) : Prop :=
  match ev with
  | Tick => True
  | Arrive outcome => unusable outcome
  end.

(** The job is reported neither completed nor failed. *)
Definition pending (outcome : AxiosOutcome num) : Prop :=
  match outcome with
  | Axios_error _ => False
  | Axios_data data =>
      exists status,
        get_prop data "status" = inr status /\
        is_string status "completed" = false /\
        is_string status "failed" = false
  end.
End ModuleA.

(** *** Dictation (lines 52-62) *)

(** One entry of [event.results]: whether it is final, and the transcript
    of its first alternative. *)
Record SpeechResult : Type := mkResult {
  isFinal : bool;
  transcript : string
}.

(** The loop of [onresult] over the results from [resultIndex] on. *)
Definition final_transcript (resultIndex : nat) (results : list SpeechResult)
  : string :=
  fold_left
    (fun finalTranscript r =>
       if isFinal r then finalTranscript +:+ (transcript r +:+ " ")
       else finalTranscript)
    (drop resultIndex results) "".

(** [onresult]: the description after the event, [trim] being
    [String.prototype.trim]. *)
Definition onresult (trim : string -> string) (resultIndex : nat)
    (results : list SpeechResult) (prev : string) : string :=
  let finalTranscript := final_transcript resultIndex results in
  if truthy_str finalTranscript then trim (prev +:+ " " +:+ finalTranscript)
  else prev.
End ModuleA.

(** ** The database page (pages/ModuleD.jsx): names and statistics *)

Module ModuleD.

(** A string as its UTF-16 code units. *)
Definition js_string : Type := list Z.

(** The code units of an ASCII literal. *)
Definition lit (s : string) : js_string :=
  map (fun a => Z.of_N (Ascii.N_of_ascii a)) (String.list_ascii_of_string s).

(** [ToInt32]. *)
Definition to_int32 (z : Z) : Z := ((z + 2 ^ 31) mod 2 ^ 32 - 2 ^ 31)%Z.

(** [a << n] and [a >> n] on numbers that are integers. *)
Definition shl (a n : Z) : Z := to_int32 (Z.shiftl (to_int32 a) n).

Definition sar (a n : Z) : Z := Z.shiftr (to_int32 a) n.

Definition FIRST_NAMES : list string :=
  ["James"; "Mary"; "Robert"; "Patricia"; "John"; "Jennifer"; "Michael";
   "Linda"; "David"; "Elizabeth"; "William"; "Barbara"; "Richard"; "Susan";
   "Joseph"; "Jessica"; "Thomas"; "Sarah"; "Charles"; "Karen"; "Christopher";
   "Nancy"; "Daniel"; "Lisa"; "Matthew"; "Betty"; "Anthony"; "Margaret";
   "Mark"; "Sandra"].

Definition LAST_NAMES : list string :=
  ["Smith"; "Johnson"; "Williams"; "Brown"; "Jones"; "Garcia"; "Miller";
   "Davis"; "Rodriguez"; "Martinez"; "Hernandez"; "Lopez"; "Gonzalez";
   "Wilson"; "Anderson"; "Thomas"; "Taylor"; "Moore"; "Jackson"; "Martin";
   "Lee"; "Perez"; "Thompson"; "White"; "Harris"; "Sanchez"; "Clark";
   "Ramirez"; "Lewis"; "Robinson"].

(** One turn of the loop: [hash = seedStr.charCodeAt(i) + ((hash << 5) - hash)].
    Only the shift wraps; the sum is a plain number. *)
Definition hash_step (hash c : Z) : Z := (c + (shl hash 5 - hash))%Z.

Definition hash_of (seed : js_string) : Z := fold_left hash_step seed 0%Z.

(** [names[i]] inside a template literal. *)
Definition name_at (names : list string) (i : Z) : string :=
  match names !! Z.to_nat i with
  | Some name => name
  | None => "undefined"
  end.

(** [generateName(seedStr)]; [None] is a seed that is [undefined] or [null]. *)
Definition generateName (seedStr : option js_string) : string :=
  match seedStr with
  | None => "Unknown"
  | Some [] => "Unknown"
  | Some seed =>
      let hash := hash_of seed in
      let fIndex := (Z.abs hash mod Z.of_nat (length FIRST_NAMES))%Z in
      let lIndex :=
        (Z.abs (sar hash 16) mod Z.of_nat (length LAST_NAMES))%Z in
      name_at FIRST_NAMES fIndex +:+ " " +:+ name_at LAST_NAMES lIndex
  end.

(** A number that a double holds exactly. *)
Definition exact (z : Z) : Prop := (Z.abs z < 2 ^ 53)%Z.

Definition code_unit (c : Z) : Prop := (0 <= c < 65536)%Z.

(** The characters the class [[^/.]] accepts. *)
Definition ext_char (c : Z) : bool := negb (Z.eqb c 47) && negb (Z.eqb c 46).

(** [rest] matches [[^/.]+$]. *)
Definition is_extension (rest : js_string) : bool :=
  match rest with
  | [] => false
  | _ => forallb ext_char rest
  end.

(** [filename.replace(/\.[^/.]+$/, "")]: the leftmost match is removed. *)
Fixpoint strip_extension (s : js_string) : js_string :=
  match s with
  | [] => []
  | c :: rest =>
      if Z.eqb c 46 && is_extension rest then []
      else c :: strip_extension rest
  end.

Fixpoint starts_with (sep s : js_string) : bool :=
  match sep, s with
  | [], _ => true
  | _ :: _, [] => false
  | a :: sep', b :: s' => Z.eqb a b && starts_with sep' s'
  end.

(** [s.split(sep)[0]] for a separator that is not empty: what comes before
    the first occurrence of [sep], all of [s] when there is none. *)
Fixpoint before_first (sep s : js_string) : js_string :=
  if starts_with sep s then []
  else
    match s with
    | [] => []
    | c :: rest => c :: before_first sep rest
    end.

(** [getBaseId(filename)]; [None] is a missing file name. *)
Definition getBaseId (filename : option js_string) : js_string :=
  match filename with
  | None => lit "Unknown"
  | Some [] => lit "Unknown"
  | Some name => before_first (lit "_aug") (strip_extension name)
  end.

(** [sep] occurs in [s]. *)
Definition occurs (sep s : js_string) : Prop :=
  exists a b, s = a ++ sep ++ b.

(** *** The crime distribution (lines 50-65) *)

(** The value of a property of [distribution]: a count, or the string that
    arithmetic on an inherited member leaves behind. *)
Inductive Tally : Type :=
  | Count (n : nat)
  | Garbage.

(** The names every object inherits from [Object.prototype]. *)
Definition prototype_names : list string :=
  ["constructor"; "__defineGetter__"; "__defineSetter__"; "hasOwnProperty";
   "__lookupGetter__"; "__lookupSetter__"; "isPrototypeOf";
   "propertyIsEnumerable"; "toString"; "valueOf"; "__proto__";
   "toLocaleString"].

Definition inherited (crime : string) : bool :=
  existsb (String.eqb crime) prototype_names.

(** [distribution[crime] = (distribution[crime] || 0) + 1].  An own count
    grows by one; an own string stays a string; an inherited member is a
    function or an object, truthy, and adding one to it makes a string;
    assigning a string to [__proto__] stores nothing. *)
Definition add_crime (distribution : gmap string Tally) (crime : string)
  : gmap string Tally :=
  match distribution !! crime with
  | Some (Count n) => <[crime := Count (S n)]> distribution
  | Some Garbage => distribution
  | None =>
      if String.eqb crime "__proto__" then distribution
      else if inherited crime then <[crime := Garbage]> distribution
      else <[crime := Count 1]> distribution
  end.

Section Distribution.
Context {num : Type} `{Number num}.

(** [suspect.payload?.crime_type || "Unknown"], as a property name. *)
Definition crime_of (crime_type : jsval num) : string :=
  to_string_val (or_else crime_type (Some (JStr "Unknown"))).

(** The [forEach] over the suspects, each given by its [crime_type]. *)
Definition crime_distribution (suspects : list (jsval num))
  : gmap string Tally :=
  fold_left add_crime (map crime_of suspects) ∅.
End Distribution.

Definition tally_count (t : Tally) : nat :=
  match t with
  | Count n => n
  | Garbage => 0
  end.

(** How many of the labels are [crime]. *)
Definition occurrences (crime : string) (labels : list string) : nat :=
  length (List.filter (String.eqb crime) labels).

(** The sum of the counts of a distribution. *)
Definition total (distribution : gmap string Tally) : nat :=
  map_fold (fun _ t acc => tally_count t + acc) 0 distribution.
End ModuleD.

(** ** Concrete pages *)

(** The length of a string of ASCII characters. *)
Definition ascii_length (s : string) : N := N.of_nat (String.length s).

(** The type error of an engine, as a page sees it. *)
Definition null_read : JsError Z :=
  mkJsError None (Some (JStr "Cannot read properties of null")).

Definition timed_out : JsError Z :=
  mkJsError None (Some (JStr "timeout of 30000ms exceeded")).

(** A status answer for a job that is still running. *)
Definition processing : AxiosOutcome Z :=
  Axios_data (JObj [("status", JStr "processing"); ("progress", JNum 10%Z)]).

Definition completed_with (found : json Z) : json Z :=
  JObj [("status", JStr "completed"); ("sketch", JStr "data:image/png;base64,AA");
        ("matches", found)].

(** * Proofs *)

(** Case analysis on a run, with the names the proofs use. *)
Ltac create_cases Hrun :=
  inversion Hrun
    as [Hs|r Hs Hok|r Hs Hok Hp|r d e Hs Hok Hp Hg|r d v' Hs Hok Hp Hg];
  subst.

Ltac session_cases Hrun :=
  inversion Hrun
    as [s Hk Hs Hsrv|s r Hk Hs Hsrv Hok|s r v' w1 Hk Hs Hsrv Hok Hc|v' w1 Hk Hc];
  subst.

Section Properties.
Context {num : Type} `{Number num}.
Variable VITE_API_URL : option string.
Variable server : Server num.

Abbreviation KEY := SESSION_STORAGE_KEY.
Abbreviation create := (create_request VITE_API_URL).
Abbreviation validation s :=
  (plain_get (SESSION_BY_ID VITE_API_URL (Some (JStr s)))).
Abbreviation session_error := "Error managing session:".
Abbreviation getSessionId' := (getSessionId VITE_API_URL server).
Abbreviation logInteraction' := (logInteraction VITE_API_URL server).
Abbreviation getHistory' := (getHistory VITE_API_URL server).
Abbreviation updateContext' := (updateContext VITE_API_URL server).
Abbreviation create_run' := (create_run VITE_API_URL server).
Abbreviation session_run' := (session_run VITE_API_URL server).
Abbreviation append_step' := (append_step VITE_API_URL server).
Abbreviation history_step' := (history_step VITE_API_URL server).
Abbreviation context_step' := (context_step VITE_API_URL server).
Abbreviation session_unavailable' := (session_unavailable VITE_API_URL server).
Abbreviation append_unavailable' := (append_unavailable VITE_API_URL server).
Abbreviation history_unavailable' := (history_unavailable VITE_API_URL server).
Abbreviation context_unavailable' := (context_unavailable VITE_API_URL server).
Abbreviation session_fails' := (session_fails VITE_API_URL server).
Abbreviation create_contract' := (create_contract VITE_API_URL server).
Abbreviation confirms' := (confirms VITE_API_URL server).
Abbreviation is_create' := (is_create VITE_API_URL).
Abbreviation creations' := (creations VITE_API_URL).
Abbreviation is_append' := (is_append VITE_API_URL).
Abbreviation session_request' := (session_request VITE_API_URL).
Abbreviation carries_web_user := (carries_web_user VITE_API_URL).
Abbreviation append_request' := (append_request VITE_API_URL).
Abbreviation clearSession' := (clearSession (num := num)).


Lemma create_session_run (w : World num) :
  exists v w',
    try_catch (create_session VITE_API_URL server)
      (fun error => do console_error session_error error then ret null) w
    = (inr v, w') /\ create_run' w v w'.
Proof.
  unfold try_catch, create_session, bind, fetch, response_json, lift, setItem,
    console_error, ret, throw.
  destruct (server (sent w) create) as [|r] eqn:Hsrv.
  - eexists _, _. split; [reflexivity|]. by apply Create_rejected.
  - destruct (ok r) eqn:Hok.
    + destruct (parsed r) as [data|] eqn:Hparsed.
      * destruct (get_prop data "session_id") as [e|v] eqn:Hprop.
        -- eexists _, _. split; [reflexivity|]. by eapply Create_no_object.
        -- eexists _, _. split; [reflexivity|]. by eapply Create_done.
      * eexists _, _. split; [reflexivity|]. by eapply Create_unparsed.
    + eexists _, _. split; [reflexivity|]. by eapply Create_refused.
Qed.

(** [getSessionId] always returns, along one of the runs. *)
Lemma getSessionId_run (w : World num) :
  exists v w',
    getSessionId VITE_API_URL server w = (inr v, w') /\ session_run' w v w'.
Proof.
  destruct (localStorage w !! KEY) as [s|] eqn:Hget.
  - destruct (truthy_str s) eqn:Hs.
    + destruct (server (sent w) (validation s)) as [|r] eqn:Hsrv.
      * exists null, (logged session_error NetworkError (requested (validation s) w)).
        split; [|by eapply Run_unreachable].
        unfold getSessionId, try_catch, bind, getItem, fetch.
        rewrite Hget. simpl. rewrite Hs, Hsrv. reflexivity.
      * destruct (ok r) eqn:Hok.
        -- exists (Some (JStr s)), (requested (validation s) w).
           split; [|by eapply Run_valid].
           unfold getSessionId, try_catch, bind, getItem, fetch.
           rewrite Hget. simpl. rewrite Hs, Hsrv, Hok. reflexivity.
        -- destruct (create_session_run (requested (validation s) w))
             as (v & w' & Hrun & Hcreate).
           exists v, w'. split; [|by eapply Run_stale].
           revert Hrun.
           unfold getSessionId, try_catch, bind, getItem, fetch.
           rewrite Hget. simpl. rewrite Hs, Hsrv, Hok. done.
    + destruct (create_session_run w) as (v & w' & Hrun & Hcreate).
      exists v, w'. split.
      * revert Hrun. unfold getSessionId, try_catch, bind, getItem.
        rewrite Hget. simpl. rewrite Hs. done.
      * apply Run_fresh; [|done]. rewrite Hget. simpl. done.
  - destruct (create_session_run w) as (v & w' & Hrun & Hcreate).
    exists v, w'. split.
    + revert Hrun. unfold getSessionId, try_catch, bind, getItem.
      rewrite Hget. simpl. done.
    + apply Run_fresh; [|done]. rewrite Hget. done.
Qed.

Lemma logInteraction_after (interactionType query results metadata : jsval num)
    (w w1 : World num) (sessionId : jsval num) :
  getSessionId' w = (inr sessionId, w1) ->
  logInteraction' interactionType query results metadata w
  = append_step' sessionId interactionType query results metadata w1.
Proof.
  intros Hsid. unfold logInteraction, append_step, try_catch, bind.
  rewrite Hsid. destruct (truthy sessionId); simpl; [|done].
  unfold fetch. by destruct (server _ _).
Qed.

Lemma getHistory_after (limit : jsval num) (w w1 : World num)
    (sessionId : jsval num) :
  getSessionId' w = (inr sessionId, w1) ->
  getHistory' limit w = history_step' sessionId limit w1.
Proof.
  intros Hsid. unfold getHistory, history_step, try_catch, bind.
  rewrite Hsid. destruct (truthy sessionId); simpl; [|done].
  unfold fetch. destruct (server _ _) as [|r]; [done|].
  destruct (ok r); [|done].
  unfold response_json. destruct (parsed r) as [data|]; [|done].
  unfold ret, lift. by destruct (get_prop data "history").
Qed.

Lemma updateContext_after (contextData : jsval num) (w w1 : World num)
    (sessionId : jsval num) :
  getSessionId' w = (inr sessionId, w1) ->
  updateContext' contextData w = context_step' sessionId contextData w1.
Proof.
  intros Hsid. unfold updateContext, context_step, try_catch, bind.
  rewrite Hsid. destruct (truthy sessionId); simpl; [|done].
  unfold fetch. by destruct (server _ _).
Qed.

(** None of the steps raises. *)
Lemma append_step_returns sid k q r m (w1 : World num) :
  exists b w', append_step' sid k q r m w1 = (inr b, w').
Proof.
  unfold append_step. destruct (truthy sid); [|by eauto].
  destruct (server _ _); by eauto.
Qed.

Lemma history_step_returns sid limit (w1 : World num) :
  exists v w', history_step' sid limit w1 = (inr v, w').
Proof.
  unfold history_step. destruct (truthy sid); [|by eauto].
  destruct (server _ _) as [|r]; [by eauto|].
  destruct (ok r); [|by eauto].
  destruct (parsed r) as [data|]; [|by eauto].
  destruct (get_prop data "history"); by eauto.
Qed.

Lemma context_step_returns sid c (w1 : World num) :
  exists b w', context_step' sid c w1 = (inr b, w').
Proof.
  unfold context_step. destruct (truthy sid); [|by eauto].
  destruct (server _ _); by eauto.
Qed.



Lemma create_run_undelivered (w w' : World num) (v : jsval num) :
  undelivered (server (sent w) create) ->
  create_run' w v w' -> v = null.
Proof.
  intros Hdown Hrun. create_cases Hrun; try reflexivity.
  rewrite Hs in Hdown. simpl in Hdown. destruct Hdown; congruence.
Qed.

Lemma getSessionId_fails (w : World num) :
  session_fails' w ->
  exists w', getSessionId' w = (inr null, w').
Proof.
  unfold session_fails. intros Hfails.
  destruct (getSessionId_run w) as (v & w' & Heq & Hrun).
  exists w'. rewrite Heq. f_equal. f_equal.
  session_cases Hrun.
  - reflexivity.
  - rewrite Hk, Hs, Hsrv in Hfails. destruct Hfails as [Hno _]. congruence.
  - rewrite Hk, Hs, Hsrv in Hfails. destruct Hfails as [_ Hdown].
    exact (create_run_undelivered (requested (validation s) w) _ _ Hdown Hc).
  - destruct (localStorage w !! KEY) as [s|]; simpl in Hk.
    + rewrite Hk in Hfails. exact (create_run_undelivered w _ _ Hfails Hc).
    + exact (create_run_undelivered w _ _ Hfails Hc).
Qed.

Lemma session_unavailable_fails (w : World num) :
  session_unavailable' -> session_fails' w.
Proof.
  intros [Hval Hcreate]. unfold session_fails.
  destruct (localStorage w !! KEY) as [s|]; [|done].
  destruct (truthy_str s); [|done].
  specialize (Hval (sent w) s).
  destruct (server (sent w) (validation s)); [done|]. done.
Qed.

(** C1.  For every operation of [SessionManager] ([getSessionId],
    [logInteraction], [getHistory], [updateContext]) and whatever the
    transport does, no exception reaches the caller, and a failure of the
    transport (network failure, non-2xx response, a body that fails to
    parse) gives the neutral value: [null] for [getSessionId], [false] for
    [logInteraction] and [updateContext], the empty array for [getHistory].
    A failure is taken on the requests the call makes: session resolution
    fails in the world of the call ([session_fails]), or the operation's own
    request, sent after session resolution, fails.  The same holds when
    the service fails such requests whenever asked. *)
Theorem failures_degrade_to_neutral
    (w : World num)
    (interactionType query results metadata limit contextData : jsval num) :
  ((exists v w', getSessionId' w = (inr v, w')) /\
   (exists b w',
      logInteraction' interactionType query results metadata w = (inr b, w')) /\
   (exists v w', getHistory' limit w = (inr v, w')) /\
   (exists b w', updateContext' contextData w = (inr b, w'))) /\
  (session_unavailable' ->
     fst (getSessionId' w) = inr null /\
     fst (logInteraction' interactionType query results metadata w) = inr false /\
     fst (getHistory' limit w) = inr empty_array /\
     fst (updateContext' contextData w) = inr false) /\
  (append_unavailable' ->
     fst (logInteraction' interactionType query results metadata w) = inr false) /\
  (history_unavailable' -> fst (getHistory' limit w) = inr empty_array) /\
  (context_unavailable' -> fst (updateContext' contextData w) = inr false) /\
  (session_fails' w ->
     fst (getSessionId' w) = inr null /\
     fst (logInteraction' interactionType query results metadata w) = inr false /\
     fst (getHistory' limit w) = inr empty_array /\
     fst (updateContext' contextData w) = inr false) /\
  (forall sid w1,
     getSessionId' w = (inr sid, w1) ->
     (refused
        (server (sent w1)
           (interaction_request VITE_API_URL sid interactionType
              (default_arg query JNull) (default_arg results JNull)
              (default_arg metadata JNull))) ->
      fst (logInteraction' interactionType query results metadata w)
        = inr false) /\
     (undelivered
        (server (sent w1)
           (history_request VITE_API_URL sid
              (default_arg limit (JNum (num_of_N 50))))) ->
      fst (getHistory' limit w) = inr empty_array) /\
     (refused (server (sent w1) (context_request VITE_API_URL sid contextData)) ->
      fst (updateContext' contextData w) = inr false)).
Proof.
  destruct (getSessionId_run w) as (sid & w1 & Hsid & _).
  rewrite (logInteraction_after _ _ _ _ _ _ _ Hsid).
  rewrite (getHistory_after _ _ _ _ Hsid).
  rewrite (updateContext_after _ _ _ _ Hsid).
  assert (Hlocal :
    (refused
       (server (sent w1)
          (interaction_request VITE_API_URL sid interactionType
             (default_arg query JNull) (default_arg results JNull)
             (default_arg metadata JNull))) ->
     fst (append_step' sid interactionType query results metadata w1)
       = inr false) /\
    (undelivered
       (server (sent w1)
          (history_request VITE_API_URL sid
             (default_arg limit (JNum (num_of_N 50))))) ->
     fst (history_step' sid limit w1) = inr empty_array) /\
    (refused (server (sent w1) (context_request VITE_API_URL sid contextData)) ->
     fst (context_step' sid contextData w1) = inr false)).
  { unfold append_step, history_step, context_step.
    destruct (truthy sid); [|done].
    split; [|split].
    - intros Hd. destruct (server _ _) as [|resp]; simpl in *;
        [done|by rewrite Hd].
    - intros Hd. destruct (server _ _) as [|resp]; simpl in *; [done|].
      destruct (ok resp); [|done].
      destruct Hd as [Hd|Hd]; [done|by rewrite Hd].
    - intros Hd. destruct (server _ _) as [|resp]; simpl in *;
        [done|by rewrite Hd]. }
  destruct Hlocal as (Happend & Hhistory & Hcontext).
  assert (Hsession : session_fails' w ->
    fst (getSessionId' w) = inr null /\
    fst (append_step' sid interactionType query results metadata w1)
      = inr false /\
    fst (history_step' sid limit w1) = inr empty_array /\
    fst (context_step' sid contextData w1) = inr false).
  { intros Hfails.
    destruct (getSessionId_fails w Hfails) as (w' & Hnull).
    rewrite Hnull in Hsid. injection Hsid as <- <-.
    rewrite Hnull. done. }
  split; [|split; [|split; [|split; [|split; [|split]]]]].
  - split; [by eauto|].
    split; [apply append_step_returns|].
    split; [apply history_step_returns|apply context_step_returns].
  - intros Hdown. apply Hsession. by apply session_unavailable_fails.
  - intros Hdown. apply Happend. apply Hdown.
  - intros Hdown. apply Hhistory. apply Hdown.
  - intros Hdown. apply Hcontext. apply Hdown.
  - exact Hsession.
  - intros sid' w1' Heq. rewrite Hsid in Heq. injection Heq as <- <-.
    done.
Qed.

(** *** The result of session resolution *)

Lemma truthy_str_true (s : string) : truthy_str s = true <-> s <> "".
Proof. destruct s; simpl; split; congruence. Qed.

(** C2, as the code has it.  [getSessionId] never raises.  Its result is
    [null], or the stored non-empty id that the service has just confirmed
    (storage untouched), or the [session_id] of the body of a 2xx create
    response, as the service sent it, stored in its string form.  When the
    service keeps to its contract the result is a non-empty string or
    [null], and a string result is the stored id. *)
Theorem getSessionId_result (w : World num) :
  exists v w',
    getSessionId' w = (inr v, w') /\
    (v = null \/
     (exists s r,
        localStorage w !! KEY = Some s /\ s <> "" /\
        server (sent w) (validation s) = Responded r /\ ok r = true /\
        v = Some (JStr s) /\ localStorage w' = localStorage w) \/
     (exists h r data,
        server h create = Responded r /\ ok r = true /\
        parsed r = Some data /\ get_prop data "session_id" = inr v /\
        localStorage w' = <[KEY := to_string_val v]> (localStorage w))) /\
    (create_contract' ->
       id_or_none v /\
       forall s, v = Some (JStr s) -> localStorage w' !! KEY = Some s).
Proof.
  destruct (getSessionId_run w) as (v & w' & Heq & Hrun).
  exists v, w'. split; [done|].
  assert (Hcreate : forall w0 v0 w0',
    localStorage w0 = localStorage w ->
    create_run' w0 v0 w0' ->
    (v0 = null \/
     exists h r data,
       server h create = Responded r /\ ok r = true /\
       parsed r = Some data /\ get_prop data "session_id" = inr v0 /\
       localStorage w0' = <[KEY := to_string_val v0]> (localStorage w))).
  { intros w0 v0 w0' Hst Hc.
    create_cases Hc; try (by left).
    right. exists (sent w0), r, d. simpl. rewrite Hst. done. }
  assert (Hshape :
    v = null \/
    (exists s r,
       localStorage w !! KEY = Some s /\ s <> "" /\
       server (sent w) (validation s) = Responded r /\ ok r = true /\
       v = Some (JStr s) /\ localStorage w' = localStorage w) \/
    (exists h r data,
       server h create = Responded r /\ ok r = true /\
       parsed r = Some data /\ get_prop data "session_id" = inr v /\
       localStorage w' = <[KEY := to_string_val v]> (localStorage w))).
  { session_cases Hrun.
    - by left.
    - right. left. exists s, r. apply truthy_str_true in Hs. done.
    - destruct (Hcreate (requested (validation s) w) _ _ eq_refl Hc) as [->|Hd];
        [by left|by right; right].
    - destruct (Hcreate w _ _ eq_refl Hc) as [->|Hd]; [by left|by right; right]. }
  split; [done|].
  intros Hcontract.
  destruct Hshape as [->|[(s & r & Hk & Hs & Hsrv & Hok & -> & Hst)|(h & r & d & Hsrv & Hok & Hp & Hg & Hst)]].
  - split; [by left|]. intros s Hs. discriminate Hs.
  - split; [right; by exists s|].
    intros s' Hs'. injection Hs' as <-. by rewrite Hst.
  - destruct (Hcontract h r d v Hsrv Hok Hp Hg) as (s & -> & Hs).
    split; [right; by exists s|].
    intros s' Hs'. injection Hs' as <-.
    rewrite Hst. simpl. apply lookup_insert_eq.
Qed.

(** *** Requests of one call *)

Lemma is_create_create : is_create' (create : Request num) = true.
Proof. unfold is_create. simpl. apply String.eqb_refl. Qed.

Lemma is_create_validation (s : string) :
  is_create' (validation s : Request num) = false.
Proof. reflexivity. Qed.

(** A successful creation stores and returns the id. *)
Lemma create_run_done (w w' : World num) (v : jsval num) r data id :
  create_run' w v w' ->
  server (sent w) create = Responded r ->
  ok r = true ->
  parsed r = Some data ->
  get_prop data "session_id" = inr (Some (JStr id)) ->
  v = Some (JStr id) /\
  localStorage w' = <[KEY := id]> (localStorage w) /\
  sent w' = sent w ++ [create].
Proof.
  intros Hrun Hsrv Hok Hp Hg.
  inversion Hrun as [Hs|r' Hs Hok'|r' Hs Hok' Hp'|r' d e Hs Hok' Hp' Hg'|r' d v' Hs Hok' Hp' Hg'];
    subst; rewrite Hsrv in Hs; try discriminate Hs;
    injection Hs as <-; try congruence.
  rewrite Hp in Hp'. injection Hp' as <-.
  rewrite Hg in Hg'. injection Hg' as <-. done.
Qed.

Lemma create_run_sent (w w' : World num) (v : jsval num) :
  create_run' w v w' -> sent w' = sent w ++ [create].
Proof. intros Hrun. by inversion Hrun; subst. Qed.

(** C3.  One call of [getSessionId] issues at most one session-create
    request.  With nothing stored (or the empty string), and with a stored
    id that the service answers with a non-2xx response, it issues exactly
    one; if that request succeeds with a body carrying the id, the id
    replaces whatever was stored and is returned. *)
Theorem one_create_per_call (w : World num) :
  exists v w' new,
    getSessionId' w = (inr v, w') /\
    sent w' = sent w ++ new /\
    creations' new <= 1 /\
    (truthy (stored_value (localStorage w !! KEY)) = false ->
       new = [create] /\ creations' new = 1 /\
       forall r data id,
         server (sent w) create = Responded r ->
         ok r = true ->
         parsed r = Some data ->
         get_prop data "session_id" = inr (Some (JStr id)) ->
         v = Some (JStr id) /\
         localStorage w' = <[KEY := id]> (localStorage w)) /\
    (forall s r0,
       localStorage w !! KEY = Some s ->
       s <> "" ->
       server (sent w) (validation s) = Responded r0 ->
       ok r0 = false ->
       new = [validation s; create] /\ creations' new = 1 /\
       forall r data id,
         server (sent w ++ [validation s]) create = Responded r ->
         ok r = true ->
         parsed r = Some data ->
         get_prop data "session_id" = inr (Some (JStr id)) ->
         v = Some (JStr id) /\
         localStorage w' = <[KEY := id]> (localStorage w)).
Proof.
  destruct (getSessionId_run w) as (v & w' & Heq & Hrun).
  assert (Hone : creations' [create] = 1).
  { unfold creations. simpl. by rewrite is_create_create. }
  assert (Htwo : forall s, creations' [validation s; create] = 1).
  { intros s. unfold creations. simpl. by rewrite is_create_create. }
  session_cases Hrun.
  - eexists _, _, [validation s]. split; [done|]. split; [done|].
    split; [unfold creations; simpl; lia|].
    split.
    + rewrite Hk. simpl. congruence.
    + intros s' r0 Hk' _ Hsrv' _. congruence.
  - eexists _, _, [validation s]. split; [done|]. split; [done|].
    split; [unfold creations; simpl; lia|].
    split.
    + rewrite Hk. simpl. congruence.
    + intros s' r0 Hk' _ Hsrv' Hok'. congruence.
  - exists v, w', [validation s; create]. split; [done|].
    split.
    { rewrite (create_run_sent _ _ _ Hc). simpl. by rewrite <- app_assoc. }
    split; [rewrite Htwo; lia|].
    split.
    + rewrite Hk. simpl. congruence.
    + intros s' r0 Hk' _ _ _.
      assert (s' = s) as -> by congruence.
      split; [done|]. split; [apply Htwo|].
      intros r' data id Hsrv' Hok' Hp Hg.
      destruct (create_run_done _ _ _ _ _ _ Hc Hsrv' Hok' Hp Hg) as (-> & Hst & _).
      done.
  - exists v, w', [create]. split; [done|].
    split; [by apply (create_run_sent _ _ _ Hc)|].
    split; [rewrite Hone; lia|].
    split.
    + intros _. split; [done|]. split; [done|].
      intros r' data id Hsrv' Hok' Hp Hg.
      destruct (create_run_done _ _ _ _ _ _ Hc Hsrv' Hok' Hp Hg) as (-> & Hst & _).
      done.
    + intros s r0 Hk' Hs _ _. rewrite Hk' in Hk. simpl in Hk.
      apply truthy_str_true in Hs. congruence.
Qed.

(** *** Repeated resolution of a confirmed id *)

Lemma getSessionId_confirmed (w : World num) (s : string) :
  localStorage w !! KEY = Some s ->
  s <> "" ->
  confirms' s ->
  getSessionId' w = (inr (Some (JStr s)), requested (validation s) w).
Proof.
  intros Hk Hs Hconf.
  destruct (Hconf (sent w)) as (r & Hsrv & Hok).
  apply truthy_str_true in Hs.
  unfold getSessionId, try_catch, bind, getItem, fetch.
  rewrite Hk. simpl. by rewrite Hs, Hsrv, Hok.
Qed.

Lemma creations_validations (s : string) (n : nat) :
  creations' (replicate n (validation s : Request num)) = 0.
Proof. induction n as [|n IH]; [done|]. unfold creations in *. simpl. done. Qed.

(** C4.  With a non-empty id [s] stored and a service that confirms it
    whenever asked, any number of calls of [getSessionId] in a row (no
    [clearSession] in between) all return [s]; each issues its validation
    request and nothing else, so no session is created, and storage is
    left as it was. *)
Theorem confirmed_id_is_stable (n : nat) (w : World num) (s : string) :
  localStorage w !! KEY = Some s ->
  s <> "" ->
  confirms' s ->
  exists w',
    repeatedly n getSessionId' w = (inr (replicate n (Some (JStr s))), w') /\
    localStorage w' = localStorage w /\
    sent w' = sent w ++ replicate n (validation s) /\
    creations' (replicate n (validation s : Request num)) = 0.
Proof.
  intros Hk Hs Hconf. revert w Hk.
  induction n as [|n IH]; intros w Hk.
  - exists w. simpl. unfold ret. by rewrite app_nil_r.
  - destruct (IH (requested (validation s) w)) as (w' & Hrun & Hst & Hsent & _);
      [done|].
    exists w'. split; [|split; [|split]].
    + simpl. unfold bind at 1. rewrite (getSessionId_confirmed w s Hk Hs Hconf).
      unfold bind at 1. by rewrite Hrun.
    + by rewrite Hst.
    + rewrite Hsent. simpl. by rewrite <- app_assoc.
    + apply creations_validations.
Qed.

(** *** Which requests an operation issues *)

Lemma session_run_requests (w w' : World num) (v : jsval num) :
  session_run' w v w' ->
  exists new, sent w' = sent w ++ new /\ Forall session_request' new.
Proof.
  intros Hrun.
  session_cases Hrun.
  - exists [validation s]. split; [done|]. repeat constructor.
  - exists [validation s]. split; [done|]. repeat constructor.
  - exists [validation s; create]. rewrite (create_run_sent _ _ _ Hc). simpl.
    split; [by rewrite <- app_assoc|]. repeat constructor.
  - exists [create]. split; [by apply (create_run_sent _ _ _ Hc)|].
    repeat constructor.
Qed.

Lemma getSessionId_requests (w w1 : World num) (sid : jsval num) :
  getSessionId' w = (inr sid, w1) ->
  exists new, sent w1 = sent w ++ new /\ Forall session_request' new.
Proof.
  intros Heq. destruct (getSessionId_run w) as (v & w' & Heq' & Hrun).
  rewrite Heq in Heq'. injection Heq' as <- <-.
  by eapply session_run_requests.
Qed.

Lemma sessions_not_interactions (sid : jsval num) :
  SESSIONS VITE_API_URL <> SESSION_INTERACTIONS VITE_API_URL sid.
Proof.
  unfold SESSIONS, SESSION_INTERACTIONS. intros Heq.
  apply (inj (String.append _)) in Heq. discriminate Heq.
Qed.

Lemma session_request_not_append (req : Request num) :
  session_request' req -> ~ is_append' req.
Proof.
  intros [s|] [Hm (sid & Hurl)].
  - discriminate Hm.
  - by apply (sessions_not_interactions sid).
Qed.

(** C6.  When session resolution yields no id (a falsy value),
    [logInteraction] returns [false] in the world session resolution left:
    it raises nothing and sends nothing more, and none of the requests of
    the call is an append request. *)
Theorem logInteraction_without_session
    (w w1 : World num) (sid interactionType query results metadata : jsval num) :
  getSessionId' w = (inr sid, w1) ->
  truthy sid = false ->
  logInteraction' interactionType query results metadata w = (inr false, w1) /\
  exists new,
    issues (logInteraction' interactionType query results metadata) w new /\
    Forall (fun req => ~ is_append' req) new.
Proof.
  intros Hsid Hfalsy.
  assert (Hlog :
    logInteraction' interactionType query results metadata w = (inr false, w1)).
  { rewrite (logInteraction_after _ _ _ _ _ _ _ Hsid).
    unfold append_step. by rewrite Hfalsy. }
  split; [done|].
  destruct (getSessionId_requests _ _ _ Hsid) as (new & Hsent & Hnew).
  exists new. unfold issues. rewrite Hlog. split; [done|].
  eapply Forall_impl; [exact Hnew|]. apply session_request_not_append.
Qed.

Lemma interaction_request_append (sid : jsval num) (kind : json num)
    (query results metadata : jsval num) :
  interaction_request VITE_API_URL sid (Some kind)
    (default_arg query JNull) (default_arg results JNull)
    (default_arg metadata JNull)
  = append_request' sid kind query results metadata.
Proof. reflexivity. Qed.

(** C7.  With a session (resolution yields a truthy id [sid]) and a kind,
    [logInteraction] sends, after the requests of session resolution (none
    of which is an append request), exactly one request: a [POST] to the
    interactions of [sid] whose body has the four fields
    [interaction_type], [query], [results], [metadata], an omitted argument
    being [null].  For [logInteraction('view', null, {suspect_id: 'X'})]
    the body is [interaction_type = 'view'], [query = null],
    [results = {suspect_id: 'X'}], [metadata = null]. *)
Theorem logInteraction_sends_one_append
    (w w1 : World num) (sid : jsval num) (kind : json num)
    (query results metadata : jsval num) :
  getSessionId' w = (inr sid, w1) ->
  truthy sid = true ->
  (exists b w' before,
     logInteraction' (Some kind) query results metadata w = (inr b, w') /\
     sent w' = sent w ++ before ++ [append_request' sid kind query results metadata] /\
     Forall (fun req => ~ is_append' req) before /\
     is_append' (append_request' sid kind query results metadata)) /\
  append_request' sid (JStr "view") (Some JNull)
    (Some (JObj [("suspect_id", JStr "X")])) None
  = mkRequest POST (SESSION_INTERACTIONS VITE_API_URL sid)
      [("Content-Type", "application/json")]
      (Some (JObj [("interaction_type", JStr "view");
                   ("query", JNull);
                   ("results", JObj [("suspect_id", JStr "X")]);
                   ("metadata", JNull)])).
Proof.
  intros Hsid Htruthy. split; [|reflexivity].
  destruct (getSessionId_requests _ _ _ Hsid) as (before & Hsent & Hbefore).
  rewrite (logInteraction_after _ _ _ _ _ _ _ Hsid).
  unfold append_step. rewrite Htruthy, interaction_request_append.
  assert (Hnot : Forall (fun req => ~ is_append' req) before).
  { eapply Forall_impl; [exact Hbefore|]. apply session_request_not_append. }
  assert (Happ : is_append' (append_request' sid kind query results metadata)).
  { split; [done|]. by exists sid. }
  destruct (server _ _) as [|r].
  - eexists _, _, before. split; [done|]. simpl. rewrite Hsent.
    by rewrite <- app_assoc.
  - eexists _, _, before. split; [done|]. simpl. rewrite Hsent.
    by rewrite <- app_assoc.
Qed.

(** *** [clearSession] *)

(** C8.  [clearSession] removes the stored session id and nothing else:
    every other key of [localStorage] keeps its value, no request is sent,
    the console is untouched.  The next [getSessionId] validates nothing and
    issues exactly one request, a session-create request; if it succeeds
    with a body carrying an id, that id is stored and returned. *)
Theorem clearSession_forgets_only_the_id (w : World num) :
  exists w1,
    clearSession' w = (inr tt, w1) /\
    localStorage w1 = delete KEY (localStorage w) /\
    localStorage w1 !! KEY = None /\
    (forall k, k <> KEY -> localStorage w1 !! k = localStorage w !! k) /\
    sent w1 = sent w /\
    console w1 = console w /\
    exists v w2,
      getSessionId' w1 = (inr v, w2) /\
      sent w2 = sent w ++ [create] /\
      forall r data id,
        server (sent w) create = Responded r ->
        ok r = true ->
        parsed r = Some data ->
        get_prop data "session_id" = inr (Some (JStr id)) ->
        v = Some (JStr id) /\ localStorage w2 !! KEY = Some id.
Proof.
  eexists. split; [reflexivity|]. simpl.
  split; [done|]. split; [apply lookup_delete_eq|].
  split; [intros k Hk; by apply lookup_delete_ne|].
  split; [done|]. split; [done|].
  set (cleared := mkWorld (delete KEY (localStorage w)) (sent w) (console w)).
  destruct (getSessionId_run cleared) as (v & w2 & Heq & Hrun).
  assert (Hnone : localStorage cleared !! KEY = None) by apply lookup_delete_eq.
  exists v, w2. split; [done|].
  session_cases Hrun; try congruence.
  split; [by apply (create_run_sent _ _ _ Hc)|].
  intros r data id Hsrv Hok Hp Hg.
  destruct (create_run_done _ _ _ _ _ _ Hc Hsrv Hok Hp Hg) as (-> & Hst & _).
  split; [done|]. rewrite Hst. apply lookup_insert_eq.
Qed.

(** *** The identity sent on creation *)

Lemma session_request_web_user (req : Request num) :
  session_request' req -> carries_web_user req.
Proof. by intros [s|] Hc. Qed.

Lemma interaction_request_not_create sid k q r m :
  is_create' (interaction_request VITE_API_URL sid k q r m) = false.
Proof.
  unfold is_create. simpl. apply String.eqb_neq.
  intros Heq. by apply (sessions_not_interactions sid).
Qed.

Lemma web_user_after_session {A} (m : M num A) (w w1 : World num)
    (sid : jsval num) (extra : list (Request num)) :
  getSessionId' w = (inr sid, w1) ->
  sent (snd (m w)) = sent w1 ++ extra ->
  Forall carries_web_user extra ->
  exists new, issues m w new /\ Forall carries_web_user new.
Proof.
  intros Hsid Hsent Hextra.
  destruct (getSessionId_requests _ _ _ Hsid) as (new & Hnew & Hreq).
  exists (new ++ extra). unfold issues.
  rewrite Hsent, Hnew, <- app_assoc. split; [done|].
  apply Forall_app. split; [|done].
  eapply Forall_impl; [exact Hreq|]. apply session_request_web_user.
Qed.

(** C9.  Among the requests that [getSessionId] issues, and likewise among
    those of [logInteraction], [getHistory] and [updateContext] (which
    resolve the session through it), every session-create request (a [POST]
    to the sessions endpoint) has the body [{ user_id: 'web_user' }],
    whatever the stored state, the arguments and the service. *)
Theorem create_requests_carry_web_user
    (w : World num)
    (interactionType query results metadata limit contextData : jsval num) :
  (exists new,
     issues getSessionId' w new /\
     Forall (fun req => is_create' req = true -> body req = web_user_body) new) /\
  (exists new,
     issues (logInteraction' interactionType query results metadata) w new /\
     Forall (fun req => is_create' req = true -> body req = web_user_body) new) /\
  (exists new,
     issues (getHistory' limit) w new /\
     Forall (fun req => is_create' req = true -> body req = web_user_body) new) /\
  (exists new,
     issues (updateContext' contextData) w new /\
     Forall (fun req => is_create' req = true -> body req = web_user_body) new).
Proof.
  destruct (getSessionId_run w) as (sid & w1 & Hsid & _).
  split; [|split; [|split]].
  - apply (web_user_after_session _ w w1 sid [] Hsid); [|done].
    rewrite Hsid. simpl. by rewrite app_nil_r.
  - set (req := interaction_request VITE_API_URL sid interactionType
                  (default_arg query JNull) (default_arg results JNull)
                  (default_arg metadata JNull)).
    assert (Hreq : carries_web_user req).
    { intros Hc. unfold req in Hc. by rewrite interaction_request_not_create in Hc. }
    destruct (truthy sid) eqn:Ht.
    + apply (web_user_after_session _ w w1 sid [req] Hsid); [|by constructor].
      rewrite (logInteraction_after _ _ _ _ _ _ _ Hsid). unfold append_step.
      rewrite Ht. fold req. by destruct (server _ _).
    + apply (web_user_after_session _ w w1 sid [] Hsid); [|done].
      rewrite (logInteraction_after _ _ _ _ _ _ _ Hsid). unfold append_step.
      rewrite Ht. simpl. by rewrite app_nil_r.
  - set (req := history_request VITE_API_URL sid
                  (default_arg limit (JNum (num_of_N 50)))).
    destruct (truthy sid) eqn:Ht.
    + apply (web_user_after_session _ w w1 sid [req] Hsid);
        [|by constructor].
      rewrite (getHistory_after _ _ _ _ Hsid). unfold history_step.
      rewrite Ht. fold req. destruct (server _ _) as [|r]; [done|].
      destruct (ok r); [|done]. destruct (parsed r) as [data|]; [|done].
      by destruct (get_prop data "history").
    + apply (web_user_after_session _ w w1 sid [] Hsid); [|done].
      rewrite (getHistory_after _ _ _ _ Hsid). unfold history_step.
      rewrite Ht. simpl. by rewrite app_nil_r.
  - set (req := context_request VITE_API_URL sid contextData).
    destruct (truthy sid) eqn:Ht.
    + apply (web_user_after_session _ w w1 sid [req] Hsid);
        [|by constructor].
      rewrite (updateContext_after _ _ _ _ Hsid). unfold context_step.
      rewrite Ht. fold req. by destruct (server _ _).
    + apply (web_user_after_session _ w w1 sid [] Hsid); [|done].
      rewrite (updateContext_after _ _ _ _ Hsid). unfold context_step.
      rewrite Ht. simpl. by rewrite app_nil_r.
Qed.

(** *** History *)

Lemma or_else_falsy (h : jsval num) :
  truthy h = false -> or_else h empty_array = empty_array.
Proof. intros Hf. unfold or_else. by rewrite Hf. Qed.

Lemma or_else_truthy (h : jsval num) :
  truthy h = true -> or_else h empty_array = h.
Proof. intros Ht. unfold or_else. by rewrite Ht. Qed.

(** C5, as the code has it.  [getHistory(limit)] never raises.  Without a
    session it returns the empty array and sends nothing more.  With one it
    sends a single request, the history of the session with [limit] (50 when
    omitted) as the [limit] query parameter; it returns the empty array when
    that request is rejected, answered with a non-2xx response or with a
    body that does not parse, and the service's [history] array as it
    came, nothing cut off: at most [n] records whenever the service sent
    at most [n]. *)
Theorem getHistory_returns_what_the_service_sent
    (w w1 : World num) (sid limit : jsval num) :
  getSessionId' w = (inr sid, w1) ->
  exists v w',
    getHistory' limit w = (inr v, w') /\
    (truthy sid = false -> v = empty_array /\ w' = w1) /\
    (truthy sid = true ->
       let req :=
         plain_get
           (SESSION_HISTORY VITE_API_URL sid +:+ "?limit=" +:+
            to_string (default_arg limit (JNum (num_of_N 50)))) in
       sent w' = sent w1 ++ [req] /\
       (undelivered (server (sent w1) req) -> v = empty_array) /\
       (forall r data records,
          server (sent w1) req = Responded r ->
          ok r = true ->
          parsed r = Some data ->
          get_prop data "history" = inr (Some (JArr records)) ->
          v = Some (JArr records) /\
          forall n, length records <= n ->
            exists out, v = Some (JArr out) /\ length out <= n)).
Proof.
  intros Hsid. rewrite (getHistory_after _ _ _ _ Hsid).
  unfold history_step, history_request.
  destruct (truthy sid) eqn:Ht.
  - set (req := plain_get _).
    destruct (server (sent w1) req) as [|r] eqn:Hsrv.
    + eexists _, _. split; [done|]. split; [done|]. intros _.
      simpl. split; [done|]. split; [done|]. intros; discriminate.
    + destruct (ok r) eqn:Hok.
      * destruct (parsed r) as [data|] eqn:Hp.
        -- destruct (get_prop data "history") as [e|h] eqn:Hg.
           ++ eexists _, _. split; [done|]. split; [done|]. intros _.
              simpl. split; [done|]. split; [done|].
              intros r' d' recs Hr' _ Hp' Hg'. congruence.
           ++ eexists _, _. split; [done|]. split; [done|]. intros _.
              simpl. split; [done|]. split.
              ** intros [Hbad|Hbad]; congruence.
              ** intros r' d' recs Hr' _ Hp' Hg'.
                 assert (h = Some (JArr recs)) as -> by congruence.
                 split; [done|]. intros n Hn. by exists recs.
        -- eexists _, _. split; [done|]. split; [done|]. intros _.
           simpl. split; [done|]. split; [done|].
           intros r' d' recs Hr' _ Hp' _. congruence.
      * eexists _, _. split; [done|]. split; [done|]. intros _.
        simpl. split; [done|]. split; [done|].
        intros r' d' recs Hr' Hok' _ _. congruence.
  - eexists _, _. split; [done|]. split; [done|]. intros; discriminate.
Qed.

(** C10, as the code has it.  For a 2xx history response whose parsed body
    has no usable [history] (the body is [null], the field is missing, or it
    is [null] or otherwise falsy), [getHistory] returns the empty array.  A
    truthy [history] is returned as it is, so the result is an array when
    the service sent one. *)
Theorem getHistory_falls_back_to_empty_array
    (w w1 : World num) (sid limit : jsval num) (r : Response num)
    (data : json num) :
  getSessionId' w = (inr sid, w1) ->
  truthy sid = true ->
  server (sent w1)
    (history_request VITE_API_URL sid (default_arg limit (JNum (num_of_N 50))))
  = Responded r ->
  ok r = true ->
  parsed r = Some data ->
  (lacks_history data -> fst (getHistory' limit w) = inr empty_array) /\
  (forall h,
     get_prop data "history" = inr h ->
     truthy h = true ->
     fst (getHistory' limit w) = inr h) /\
  (forall h,
     get_prop data "history" = inr h ->
     truthy h = false \/ is_array h ->
     exists v, fst (getHistory' limit w) = inr v /\ is_array v).
Proof.
  intros Hsid Ht Hsrv Hok Hp. rewrite (getHistory_after _ _ _ _ Hsid).
  unfold history_step, lacks_history. rewrite Ht, Hsrv, Hok, Hp.
  destruct (get_prop data "history") as [e|h] eqn:Hg.
  - split; [done|]. split; intros; discriminate.
  - split; [|split].
    + intros Hf. simpl. by rewrite or_else_falsy.
    + intros h' Hh' Hh. injection Hh' as <-. simpl. by rewrite or_else_truthy.
    + intros h' Hh' Hh. injection Hh' as <-. simpl.
      destruct (truthy h) eqn:Hth.
      * rewrite or_else_truthy by done. exists h. split; [done|].
        destruct Hh as [Hh|Hh]; [discriminate|done].
      * rewrite or_else_falsy by done. exists empty_array. split; [done|].
        by exists [].
Qed.
End Properties.

(** * The properties on concrete browsers and services *)

Example to_string_of_array :
  to_string (JArr [JNum 1%Z; JNull; JStr "a"; JArr [JBool true; JObj []]])
  = "1,,a,true,[object Object]".
Proof. reflexivity. Qed.

Example falsy_values :
  map truthy [undefined; null; Some (JBool false); Some (JNum 0%Z); Some (JStr "")]
  = [false; false; false; false; false].
Proof. reflexivity. Qed.

Example truthy_values :
  map truthy [Some (JStr "0"); Some (JNum 7%Z); Some (JArr []); Some (JObj [])]
  = [true; true; true; true].
Proof. reflexivity. Qed.

Example undefined_kind_is_left_out :
  body (interaction_request None (Some (JStr "s1")) undefined JNull JNull JNull
        : Request Z)
  = Some (JObj [("query", JNull); ("results", JNull); ("metadata", JNull)]).
Proof. reflexivity. Qed.

Example history_url :
  url (history_request None (Some (JStr "s1")) (JNum 5%Z))
  = "http://localhost:8086/api/sessions/s1/history?limit=5".
Proof. reflexivity. Qed.

Example empty_id_is_created_again :
  let server := by_method (json_reply (JObj [])) (session_reply (JStr "s2"))
                  not_found in
  let w' := snd (getSessionId None server (browser_with_id "")) in
  fst (getSessionId None server (browser_with_id "")) = inr (Some (JStr "s2")) /\
  sent w' = [create_request None] /\
  localStorage w' !! SESSION_STORAGE_KEY = Some "s2".
Proof. repeat split. Qed.

Example unreachable_validation_creates_nothing :
  let w' := snd (getSessionId None unreachable (browser_with_id "s1")) in
  fst (getSessionId None unreachable (browser_with_id "s1")) = inr null /\
  sent w' = [plain_get "http://localhost:8086/api/sessions/s1"] /\
  console w' = [("Error managing session:", NetworkError)].
Proof. repeat split. Qed.

(** A 2xx answer to a validation, an append or a context update is a
    success whatever its body: those bodies are never read.  With a service
    that answers every request with 204 and no body and an id stored,
    [getSessionId] returns the id and [logInteraction] and [updateContext]
    return [true]. *)
Example unread_bodies_do_not_matter :
  let server := by_method no_content no_content no_content in
  let w := browser_with_id "s1" in
  fst (getSessionId None server w) = inr (Some (JStr "s1")) /\
  fst (logInteraction None server (Some (JStr "view")) None None None w)
    = inr true /\
  fst (updateContext None server (Some (JObj [])) w) = inr true.
Proof. repeat split. Qed.

Lemma failures_degrade_to_neutral_witness :
  let w := browser_with_id "s1" in
  (session_unavailable None unreachable /\
   append_unavailable None unreachable /\
   history_unavailable None unreachable /\
   context_unavailable None unreachable /\
   fst (getSessionId None unreachable w) = inr null /\
   fst (logInteraction None unreachable (Some (JStr "view")) None None None w)
     = inr false /\
   fst (getHistory None unreachable (Some (JNum 5%Z)) w) = inr empty_array /\
   fst (updateContext None unreachable (Some (JObj [])) w) = inr false) /\
  (session_fails None reads_cut_off w /\
   fst (getSessionId None reads_cut_off w) = inr null /\
   fst (logInteraction None reads_cut_off (Some (JStr "view")) None None None w)
     = inr false /\
   fst (getHistory None reads_cut_off (Some (JNum 5%Z)) w) = inr empty_array /\
   fst (updateContext None reads_cut_off (Some (JObj [])) w) = inr false) /\
  (let server := first_only in
   getSessionId None server w
     = (inr (Some (JStr "s1")), snd (getSessionId None server w)) /\
   fst (logInteraction None server (Some (JStr "view")) None None None w)
     = inr false /\
   fst (getHistory None server (Some (JNum 5%Z)) w) = inr empty_array /\
   fst (updateContext None server (Some (JObj [])) w) = inr false).
Proof.
  intros w.
  assert (Hs : session_unavailable None unreachable)
    by (split; intros; simpl; exact I).
  assert (Ha : append_unavailable None unreachable)
    by (intros ? ? ? ? ? ?; simpl; exact I).
  assert (Hh : history_unavailable None unreachable)
    by (intros ? ? ?; simpl; exact I).
  assert (Hc : context_unavailable None unreachable)
    by (intros ? ? ?; simpl; exact I).
  assert (Hf : session_fails None reads_cut_off w) by (simpl; exact I).
  split; [|split].
  - destruct (failures_degrade_to_neutral None unreachable w
                (Some (JStr "view")) None None None (Some (JNum 5%Z))
                (Some (JObj [])))
      as (_ & Hsession & Happend & Hhistory & Hcontext & _).
    split; [exact Hs|]. split; [exact Ha|]. split; [exact Hh|].
    split; [exact Hc|].
    split; [exact (proj1 (Hsession Hs))|].
    split; [exact (Happend Ha)|].
    split; [exact (Hhistory Hh)|exact (Hcontext Hc)].
  - destruct (failures_degrade_to_neutral None reads_cut_off w
                (Some (JStr "view")) None None None (Some (JNum 5%Z))
                (Some (JObj [])))
      as (_ & _ & _ & _ & _ & Hfails & _).
    split; [exact Hf|]. exact (Hfails Hf).
  - intros server.
    assert (Hsid : getSessionId None server w
                   = (inr (Some (JStr "s1")), snd (getSessionId None server w)))
      by reflexivity.
    destruct (failures_degrade_to_neutral None server w
                (Some (JStr "view")) None None None (Some (JNum 5%Z))
                (Some (JObj [])))
      as (_ & _ & _ & _ & _ & _ & Hown).
    destruct (Hown (Some (JStr "s1")) (snd (getSessionId None server w)) Hsid)
      as (Happend & Hhistory & Hcontext).
    assert (Hrefused : refused (Responded (mkResponse 404 None : Response Z)))
      by reflexivity.
    assert (Hundelivered :
              undelivered (Responded (mkResponse 404 None : Response Z)))
      by (left; reflexivity).
    split; [exact Hsid|].
    split; [exact (Happend Hrefused)|].
    split; [exact (Hhistory Hundelivered)|exact (Hcontext Hrefused)].
Defined.

(** A service whose create response carries [session_id: true]:
    [getSessionId] returns the boolean, neither an id nor [null]. *)
Lemma getSessionId_returns_a_boolean :
  let server := by_method not_found (session_reply (JBool true)) not_found in
  fst (getSessionId None server fresh_browser) = inr (Some (JBool true)) /\
  ~ id_or_none (Some (JBool true) : jsval Z) /\
  localStorage (snd (getSessionId None server fresh_browser))
    !! SESSION_STORAGE_KEY = Some "true".
Proof.
  split; [reflexivity|]. split; [|reflexivity].
  intros [Hnull|(s & Hs & _)]; discriminate.
Qed.

Lemma getSessionId_result_witness :
  let server := by_method not_found (session_reply (JStr "s1")) not_found in
  create_contract None server /\
  exists v w',
    getSessionId None server fresh_browser = (inr v, w') /\
    id_or_none v /\
    forall s, v = Some (JStr s) -> localStorage w' !! SESSION_STORAGE_KEY = Some s.
Proof.
  intros server.
  assert (Hcontract : create_contract None server).
  { intros h r data v Hsrv _ Hp Hg. simpl in Hsrv. injection Hsrv as <-.
    simpl in Hp. injection Hp as <-. simpl in Hg. injection Hg as <-.
    exists "s1". split; [reflexivity|discriminate]. }
  split; [exact Hcontract|].
  destruct (getSessionId_result None server fresh_browser)
    as (v & w' & Heq & _ & Hid).
  exists v, w'. split; [exact Heq|]. exact (Hid Hcontract).
Defined.

Lemma one_create_per_call_witness :
  let server := by_method not_found (session_reply (JStr "s1")) not_found in
  (exists w',
     getSessionId None server fresh_browser = (inr (Some (JStr "s1")), w') /\
     sent w' = [create_request None] /\
     localStorage w' = <[SESSION_STORAGE_KEY := "s1"]> (localStorage fresh_browser)) /\
  (exists w',
     getSessionId None server (browser_with_id "old")
       = (inr (Some (JStr "s1")), w') /\
     sent w' =
       [plain_get (SESSION_BY_ID None (Some (JStr "old") : jsval Z));
        create_request None] /\
     localStorage w' =
       <[SESSION_STORAGE_KEY := "s1"]> (localStorage (browser_with_id "old"))).
Proof.
  intros server. split.
  - destruct (one_create_per_call None server fresh_browser)
      as (v & w' & new & Heq & Hsent & _ & Hfresh & _).
    destruct (Hfresh eq_refl) as (-> & _ & Hdone).
    destruct (Hdone (session_reply (JStr "s1")) _ "s1"
                eq_refl eq_refl eq_refl eq_refl) as (-> & Hst).
    exists w'. split; [exact Heq|]. split; [exact Hsent|exact Hst].
  - destruct (one_create_per_call None server (browser_with_id "old"))
      as (v & w' & new & Heq & Hsent & _ & _ & Hstale).
    assert (Hold : "old" <> "") by discriminate.
    destruct (Hstale "old" not_found eq_refl Hold eq_refl eq_refl)
      as (-> & _ & Hdone).
    destruct (Hdone (session_reply (JStr "s1")) _ "s1"
                eq_refl eq_refl eq_refl eq_refl) as (-> & Hst).
    exists w'. split; [exact Heq|]. split; [exact Hsent|exact Hst].
Defined.

Lemma confirmed_id_is_stable_witness :
  let server := by_method (json_reply (JObj [])) not_found not_found in
  let w := browser_with_id "s1" in
  localStorage w !! SESSION_STORAGE_KEY = Some "s1" /\
  "s1" <> "" /\
  confirms None server "s1" /\
  exists w',
    repeatedly 3 (getSessionId None server) w
      = (inr [Some (JStr "s1"); Some (JStr "s1"); Some (JStr "s1")], w') /\
    localStorage w' = localStorage w.
Proof.
  intros server w.
  assert (Hk : localStorage w !! SESSION_STORAGE_KEY = Some "s1") by reflexivity.
  assert (Hs : "s1" <> "") by discriminate.
  assert (Hconf : confirms None server "s1").
  { intros h. exists (json_reply (JObj [])). split; reflexivity. }
  split; [exact Hk|]. split; [exact Hs|]. split; [exact Hconf|].
  destruct (confirmed_id_is_stable None server 3 w "s1" Hk Hs Hconf)
    as (w' & Hrun & Hst & _).
  exists w'. split; [exact Hrun|exact Hst].
Defined.

(** Asked for one record, a service that sends two gets both through. *)
Lemma getHistory_exceeds_limit :
  let two := [JObj [("interaction_type", JStr "view")];
              JObj [("interaction_type", JStr "search")]] in
  let server := by_method (history_reply (JArr two)) not_found not_found in
  fst (getHistory None server (Some (JNum 1%Z)) (browser_with_id "s1"))
    = inr (Some (JArr two)) /\
  ~ length two <= 1.
Proof.
  split; [reflexivity|]. simpl. lia.
Qed.

Lemma getHistory_returns_what_the_service_sent_witness :
  let one := [JObj [("interaction_type", JStr "view")]] in
  let server := by_method (history_reply (JArr one)) not_found not_found in
  let w := browser_with_id "s1" in
  getSessionId None server w
    = (inr (Some (JStr "s1")), snd (getSessionId None server w)) /\
  exists w' out,
    getHistory None server (Some (JNum 5%Z)) w = (inr (Some (JArr out)), w') /\
    length out <= 5.
Proof.
  intros one server w.
  assert (Hsid : getSessionId None server w
                 = (inr (Some (JStr "s1")), snd (getSessionId None server w)))
    by reflexivity.
  split; [exact Hsid|].
  destruct (getHistory_returns_what_the_service_sent None server w _
              (Some (JStr "s1")) (Some (JNum 5%Z)) Hsid)
    as (v & w' & Heq & _ & Hwith).
  destruct (Hwith eq_refl) as (_ & _ & Hsent).
  destruct (Hsent (history_reply (JArr one)) _ one eq_refl eq_refl eq_refl eq_refl)
    as (Hv & Hbound).
  assert (Hlen : length one <= 5) by (simpl; lia).
  destruct (Hbound 5 Hlen) as (out & Hout & Hle).
  exists w', out. rewrite Heq, Hout. split; [reflexivity|exact Hle].
Defined.

Lemma logInteraction_without_session_witness :
  let w := fresh_browser in
  getSessionId None unreachable w
    = (inr null, snd (getSessionId None unreachable w)) /\
  truthy (null : jsval Z) = false /\
  logInteraction None unreachable (Some (JStr "view")) None None None w
    = (inr false, snd (getSessionId None unreachable w)).
Proof.
  intros w.
  assert (Hsid : getSessionId None unreachable w
                 = (inr null, snd (getSessionId None unreachable w)))
    by reflexivity.
  assert (Hfalsy : truthy (null : jsval Z) = false) by reflexivity.
  split; [exact Hsid|]. split; [exact Hfalsy|].
  exact (proj1 (logInteraction_without_session None unreachable w _ null
                  (Some (JStr "view")) None None None Hsid Hfalsy)).
Defined.

Lemma logInteraction_sends_one_append_witness :
  let server := by_method (json_reply (JObj [])) no_content not_found in
  let w := browser_with_id "s1" in
  let results : json Z := JObj [("suspect_id", JStr "X")] in
  getSessionId None server w
    = (inr (Some (JStr "s1")), snd (getSessionId None server w)) /\
  truthy (Some (JStr "s1") : jsval Z) = true /\
  exists b w' before,
    logInteraction None server (Some (JStr "view")) (Some JNull) (Some results)
      None w = (inr b, w') /\
    sent w' =
      sent w ++ before ++
      [mkRequest POST "http://localhost:8086/api/sessions/s1/interactions"
         [("Content-Type", "application/json")]
         (Some (JObj [("interaction_type", JStr "view");
                      ("query", JNull);
                      ("results", results);
                      ("metadata", JNull)]))].
Proof.
  intros server w results.
  assert (Hsid : getSessionId None server w
                 = (inr (Some (JStr "s1")), snd (getSessionId None server w)))
    by reflexivity.
  assert (Htruthy : truthy (Some (JStr "s1") : jsval Z) = true) by reflexivity.
  split; [exact Hsid|]. split; [exact Htruthy|].
  destruct (logInteraction_sends_one_append None server w _ (Some (JStr "s1"))
              (JStr "view") (Some JNull) (Some results) None Hsid Htruthy)
    as ((b & w' & before & Heq & Hsent & _) & _).
  exists b, w', before. split; [exact Heq|exact Hsent].
Defined.

Lemma clearSession_forgets_only_the_id_witness :
  let server := by_method not_found (session_reply (JStr "s2")) not_found in
  let w := mkWorld (<["theme" := "dark"]> (localStorage (browser_with_id "s1")))
             [] [] : World Z in
  exists w1 w2,
    clearSession w = (inr tt, w1) /\
    localStorage w1 !! "theme" = Some "dark" /\
    getSessionId None server w1 = (inr (Some (JStr "s2")), w2) /\
    sent w2 = [create_request None] /\
    localStorage w2 !! SESSION_STORAGE_KEY = Some "s2".
Proof.
  intros server w.
  destruct (clearSession_forgets_only_the_id None server w)
    as (w1 & Hclear & _ & _ & Hother & _ & _ & v & w2 & Heq & Hsent & Hdone).
  assert (Hkey : "theme" <> SESSION_STORAGE_KEY) by discriminate.
  destruct (Hdone (session_reply (JStr "s2")) _ "s2"
              eq_refl eq_refl eq_refl eq_refl) as (-> & Hst).
  exists w1, w2. split; [exact Hclear|].
  split; [rewrite (Hother "theme" Hkey); reflexivity|].
  split; [exact Heq|]. split; [exact Hsent|exact Hst].
Defined.

Lemma create_requests_carry_web_user_witness :
  let server := by_method not_found (session_reply (JStr "s1")) not_found in
  exists new,
    issues (getSessionId None server) fresh_browser new /\
    new = [create_request None] /\
    body (create_request None : Request Z)
      = Some (JObj [("user_id", JStr "web_user")]).
Proof.
  intros server.
  destruct (create_requests_carry_web_user None server fresh_browser
              None None None None None None)
    as ((new & Hnew & Hall) & _).
  exists new. split; [exact Hnew|].
  assert (Heq : new = [create_request None]) by (symmetry; exact Hnew).
  split; [exact Heq|].
  rewrite Heq in Hall.
  exact (Forall_inv Hall eq_refl).
Defined.

(** A service whose history is a string: [getHistory] returns the string. *)
Lemma getHistory_returns_a_string :
  let server := by_method (history_reply (JStr "oops")) not_found not_found in
  fst (getHistory None server None (browser_with_id "s1"))
    = inr (Some (JStr "oops")) /\
  ~ is_array (Some (JStr "oops") : jsval Z).
Proof.
  split; [reflexivity|]. intros (items & Hitems). discriminate Hitems.
Qed.

Lemma getHistory_falls_back_to_empty_array_witness :
  let server := by_method (json_reply (JObj [("count", JNum 0%Z)]))
                  not_found not_found in
  let w := browser_with_id "s1" in
  getSessionId None server w
    = (inr (Some (JStr "s1")), snd (getSessionId None server w)) /\
  lacks_history (JObj [("count", JNum 0%Z)] : json Z) /\
  fst (getHistory None server None w) = inr empty_array.
Proof.
  intros server w.
  assert (Hsid : getSessionId None server w
                 = (inr (Some (JStr "s1")), snd (getSessionId None server w)))
    by reflexivity.
  assert (Hlacks : lacks_history (JObj [("count", JNum 0%Z)] : json Z))
    by reflexivity.
  split; [exact Hsid|]. split; [exact Hlacks|].
  exact (proj1 (getHistory_falls_back_to_empty_array None server w _
                  (Some (JStr "s1")) None _ _ Hsid eq_refl eq_refl eq_refl eq_refl)
           Hlacks).
Defined.

(** * Further properties of [SessionManager] *)

Section StringFacts.

Lemma string_app_cons (x : Ascii.ascii) (a b : string) :
  String x a +:+ b = String x (a +:+ b).
Proof. reflexivity. Qed.

Lemma string_app_assoc (a b c : string) : (a +:+ b) +:+ c = a +:+ (b +:+ c).
Proof.
  induction a as [|x a IH]; [done|].
  rewrite !string_app_cons. by rewrite IH.
Qed.

Lemma string_length_app (a b : string) :
  String.length (a +:+ b) = String.length a + String.length b.
Proof.
  induction a as [|x a IH]; [done|].
  rewrite string_app_cons. simpl. by rewrite IH.
Qed.

(** Cancellation of a common suffix. *)
Lemma string_app_inj_r (a b t : string) : a +:+ t = b +:+ t -> a = b.
Proof.
  revert b. induction a as [|x a IH]; intros [|y b] Heq.
  - done.
  - apply (f_equal String.length) in Heq.
    rewrite !string_length_app in Heq. simpl in Heq. lia.
  - apply (f_equal String.length) in Heq.
    rewrite !string_length_app in Heq. simpl in Heq. lia.
  - rewrite !string_app_cons in Heq. injection Heq as -> Heq.
    f_equal. by apply IH.
Qed.
End StringFacts.

Section MoreProperties.
Context {num : Type} `{Number num}.
Variable VITE_API_URL : option string.
Variable server : Server num.

Abbreviation KEY := SESSION_STORAGE_KEY.
Abbreviation create := (create_request VITE_API_URL).
Abbreviation validation s :=
  (plain_get (SESSION_BY_ID VITE_API_URL (Some (JStr s)))).
Abbreviation getSessionId' := (getSessionId VITE_API_URL server).
Abbreviation logInteraction' := (logInteraction VITE_API_URL server).
Abbreviation getHistory' := (getHistory VITE_API_URL server).
Abbreviation updateContext' := (updateContext VITE_API_URL server).
Abbreviation session_run' := (session_run VITE_API_URL server).
Abbreviation create_run' := (create_run VITE_API_URL server).
Abbreviation accepted' := (accepted server).
Abbreviation put_request' := (put_request VITE_API_URL).
Abbreviation append_request' := (append_request VITE_API_URL).
Abbreviation logs_as_met := (logs_as_met (num := num)).

(** *** [updateContext] *)

(** X1.  Without a session [updateContext] gives up at once: it returns [false]
    in the world session resolution left, so no request follows. *)
Theorem updateContext_without_session
    (w w1 : World num) (sid contextData : jsval num) :
  getSessionId' w = (inr sid, w1) ->
  truthy sid = false ->
  updateContext' contextData w = (inr false, w1).
Proof.
  intros Hsid Hfalsy.
  rewrite (updateContext_after _ _ _ _ _ _ Hsid).
  unfold context_step. by rewrite Hfalsy.
Qed.

Lemma context_request_put (sid contextData : jsval num) :
  context_request VITE_API_URL sid contextData = put_request' sid contextData.
Proof. by destruct contextData. Qed.

(** X2.  With a session [updateContext] sends exactly one more request, the
    [PUT] of the context, and returns [true] exactly when the service
    answers it with a 2xx response; storage is left as session resolution
    left it. *)
Theorem updateContext_sends_one_put
    (w w1 : World num) (sid contextData : jsval num) :
  getSessionId' w = (inr sid, w1) ->
  truthy sid = true ->
  exists b w',
    updateContext' contextData w = (inr b, w') /\
    sent w' = sent w1 ++ [put_request' sid contextData] /\
    localStorage w' = localStorage w1 /\
    (b = true <-> accepted' (sent w1) (put_request' sid contextData)).
Proof.
  intros Hsid Htruthy.
  rewrite (updateContext_after _ _ _ _ _ _ Hsid).
  unfold context_step, accepted. rewrite Htruthy, context_request_put.
  destruct (server _ _) as [|r] eqn:Hsrv.
  - eexists _, _. split; [done|]. split; [done|]. split; [done|].
    split; [done|]. intros (r & Hr & _). discriminate Hr.
  - eexists _, _. split; [done|]. split; [done|]. split; [done|].
    split.
    + intros Hok. by exists r.
    + intros (r' & Hr & Hok). by injection Hr as ->.
Qed.

(** *** The result of [logInteraction] *)

(** X3.  With a session and a kind, [logInteraction] returns [true] exactly when
    the service answers the append request with a 2xx response; storage is
    left as session resolution left it. *)
Theorem logInteraction_reports_acceptance
    (w w1 : World num) (sid : jsval num) (kind : json num)
    (query results metadata : jsval num) :
  getSessionId' w = (inr sid, w1) ->
  truthy sid = true ->
  exists b w',
    logInteraction' (Some kind) query results metadata w = (inr b, w') /\
    localStorage w' = localStorage w1 /\
    (b = true <->
     accepted' (sent w1) (append_request' sid kind query results metadata)).
Proof.
  intros Hsid Htruthy.
  rewrite (logInteraction_after _ _ _ _ _ _ _ _ _ Hsid).
  unfold append_step, accepted.
  rewrite Htruthy, interaction_request_append.
  destruct (server _ _) as [|r] eqn:Hsrv.
  - eexists _, _. split; [done|]. split; [done|].
    split; [done|]. intros (r & Hr & _). discriminate Hr.
  - eexists _, _. split; [done|]. split; [done|].
    split.
    + intros Hok. by exists r.
    + intros (r' & Hr & Hok). by injection Hr as ->.
Qed.

(** *** What the operations leave alone *)

Lemma create_run_storage (w w' : World num) (v : jsval num) :
  create_run' w v w' ->
  localStorage w' = localStorage w \/
  (localStorage w' = <[KEY := to_string_val v]> (localStorage w) /\
   exists r data,
     server (sent w) create = Responded r /\ ok r = true /\
     parsed r = Some data /\ get_prop data "session_id" = inr v).
Proof.
  intros Hrun. create_cases Hrun; try (by left).
  right. split; [done|]. by exists r, d.
Qed.

(** [getSessionId] writes to storage only after a create request that the
    service answered 2xx with a body from which [session_id] could be read. *)
Lemma session_run_storage (w w' : World num) (v : jsval num) :
  session_run' w v w' ->
  localStorage w' = localStorage w \/
  (localStorage w' = <[KEY := to_string_val v]> (localStorage w) /\
   exists h r data,
     server h create = Responded r /\ ok r = true /\
     parsed r = Some data /\ get_prop data "session_id" = inr v).
Proof.
  intros Hrun. session_cases Hrun; try (by left).
  - destruct (create_run_storage _ _ _ Hc) as [Hst|(Hst & r' & d & Hd)];
      [by left|].
    right. split; [done|]. by exists (sent w ++ [validation s]), r', d.
  - destruct (create_run_storage _ _ _ Hc) as [Hst|(Hst & r' & d & Hd)];
      [by left|].
    right. split; [done|]. by exists (sent w), r', d.
Qed.

Lemma getSessionId_storage (w wf : World num) (v : jsval num) :
  getSessionId' w = (inr v, wf) ->
  localStorage wf = localStorage w \/
  (localStorage wf = <[KEY := to_string_val v]> (localStorage w) /\
   exists h r data,
     server h create = Responded r /\ ok r = true /\
     parsed r = Some data /\ get_prop data "session_id" = inr v).
Proof.
  intros Heq.
  destruct (getSessionId_run VITE_API_URL server w) as (v' & w' & Heq' & Hrun).
  rewrite Heq in Heq'. injection Heq' as <- <-.
  by apply session_run_storage.
Qed.

Lemma steps_keep_storage (w1 : World num) (sid k q r m limit c : jsval num) :
  localStorage (snd (append_step VITE_API_URL server sid k q r m w1))
    = localStorage w1 /\
  localStorage (snd (history_step VITE_API_URL server sid limit w1))
    = localStorage w1 /\
  localStorage (snd (context_step VITE_API_URL server sid c w1))
    = localStorage w1.
Proof.
  unfold append_step, history_step, context_step.
  destruct (truthy sid); [|done].
  split; [by destruct (server _ _)|].
  split; [|by destruct (server _ _)].
  destruct (server _ _) as [|resp]; [done|].
  destruct (ok resp); [|done].
  destruct (parsed resp) as [data|]; [|done].
  by destruct (get_prop data "history").
Qed.

(** X4.  No operation touches a key of [localStorage] other than the session
    key, and [logInteraction], [getHistory] and [updateContext] leave storage
    exactly as their session resolution left it. *)
Theorem operations_keep_other_keys
    (w : World num)
    (interactionType query results metadata limit contextData : jsval num) :
  let after_session := localStorage (snd (getSessionId' w)) in
  same_elsewhere w (snd (getSessionId' w)) /\
  localStorage (snd (logInteraction' interactionType query results metadata w))
    = after_session /\
  localStorage (snd (getHistory' limit w)) = after_session /\
  localStorage (snd (updateContext' contextData w)) = after_session.
Proof.
  destruct (getSessionId_run VITE_API_URL server w) as (sid & w1 & Hsid & Hrun).
  rewrite (logInteraction_after _ _ _ _ _ _ _ _ _ Hsid).
  rewrite (getHistory_after _ _ _ _ _ _ Hsid).
  rewrite (updateContext_after _ _ _ _ _ _ Hsid).
  rewrite Hsid. simpl.
  destruct (steps_keep_storage w1 sid interactionType query results metadata
              limit contextData) as (Ha & Hh & Hc).
  split; [|done].
  intros k Hk.
  destruct (session_run_storage _ _ _ Hrun) as [->|(-> & _)]; [done|].
  by apply lookup_insert_ne.
Qed.

(** X5.  When no create request is ever answered with a 2xx response whose body
    parses, [getSessionId] leaves storage as it found it: a stored id that
    could not be validated or replaced is kept, not removed. *)
Theorem failed_resolution_keeps_storage (w : World num) :
  (forall h, undelivered (server h create)) ->
  localStorage (snd (getSessionId' w)) = localStorage w.
Proof.
  intros Hdown.
  destruct (getSessionId_run VITE_API_URL server w) as (sid & w1 & Hsid & Hrun).
  rewrite Hsid. simpl.
  destruct (session_run_storage _ _ _ Hrun)
    as [Hst|(_ & h & r & d & Hsrv & Hok & Hp & _)]; [done|].
  specialize (Hdown h). rewrite Hsrv in Hdown. simpl in Hdown.
  destruct Hdown; congruence.
Qed.

(** X6.  When the validation of a stored id is rejected by the network,
    [getSessionId] returns [null] after that one request: it asks for no new
    session, keeps the stored id and logs the error. *)
Theorem rejected_validation_creates_nothing (w : World num) (s : string) :
  localStorage w !! KEY = Some s ->
  s <> "" ->
  server (sent w) (validation s) = Rejected ->
  exists w',
    getSessionId' w = (inr null, w') /\
    sent w' = sent w ++ [validation s] /\
    localStorage w' = localStorage w /\
    console w' = console w ++ [("Error managing session:", NetworkError)].
Proof.
  intros Hk Hs Hsrv. apply truthy_str_true in Hs.
  exists (logged "Error managing session:" NetworkError
            (requested (validation s) w)).
  split; [|done].
  unfold getSessionId, try_catch, bind, getItem, fetch.
  rewrite Hk. simpl. by rewrite Hs, Hsrv.
Qed.

(** *** The id that is returned is the id that is stored *)

Lemma truthy_result_stored (w wf : World num) (v : jsval num) :
  getSessionId' w = (inr v, wf) ->
  truthy v = true ->
  localStorage wf !! KEY = Some (to_string_val v).
Proof.
  intros Heq Htruthy.
  destruct (getSessionId_run VITE_API_URL server w) as (v' & w' & Heq' & Hrun).
  rewrite Heq in Heq'. injection Heq' as <- <-.
  assert (Hcreate : forall w0 w0',
    create_run' w0 v w0' -> localStorage w0' !! KEY = Some (to_string_val v)).
  { intros w0 w0' Hc. create_cases Hc; try discriminate Htruthy.
    apply lookup_insert_eq. }
  session_cases Hrun; try discriminate Htruthy.
  - done.
  - apply (Hcreate _ _ Hc).
  - apply (Hcreate _ _ Hc).
Qed.

(** X7.  Whenever [getSessionId] returns a truthy value, the session key holds
    the string form of that value: the stored id is the one the URLs of the
    caller are built from. *)
Theorem returned_id_is_stored (w wf : World num) (v : jsval num) :
  getSessionId' w = (inr v, wf) ->
  truthy v = true ->
  localStorage wf !! KEY = Some (to_string_val v).
Proof. apply truthy_result_stored. Qed.

(** X8.  An id handed out once is validated, not replaced, the next time: after
    a call that returned the non-empty string [s], a further call to a
    service that confirms [s] sends the validation of [s] and nothing else,
    and returns [s]. *)
Theorem returned_id_is_validated_next (w w1 : World num) (s : string) :
  getSessionId' w = (inr (Some (JStr s)), w1) ->
  s <> "" ->
  confirms VITE_API_URL server s ->
  getSessionId' w1 = (inr (Some (JStr s)), requested (validation s) w1).
Proof.
  intros Heq Hs Hconf.
  apply getSessionId_confirmed; [|done|done].
  apply (truthy_result_stored _ _ _ Heq).
  by apply truthy_str_true.
Qed.

(** *** The console *)

Lemma create_run_console (w0 w0' : World num) (v : jsval num) :
  create_run' w0 v w0' ->
  sent w0' = sent w0 ++ [create] /\
  logs_as_met (server (sent w0) create) create (console w0) (console w0') /\
  (truthy v = true -> console w0' = console w0).
Proof.
  intros Hc. unfold logs_as_met.
  create_cases Hc; (split; [done|]); rewrite Hs.
  - split; [|by intros]. split; [done|]. repeat split; intros; discriminate.
  - split; [|by intros]. split; [intros; discriminate|].
    split; [done|]. split; intros r' Hr'; injection Hr' as <-; congruence.
  - split; [|by intros]. split; [intros; discriminate|].
    split; [intros r' Hr'; injection Hr' as <-; congruence|].
    split; [by intros|].
    intros r' Hr' _ _. injection Hr' as <-. by rewrite Hp.
  - split; [|by intros]. split; [intros; discriminate|].
    split; [intros r' Hr'; injection Hr' as <-; congruence|].
    split; [by intros|].
    intros r' Hr' _ _. injection Hr' as <-. rewrite Hp.
    destruct d; simpl in Hg; try discriminate Hg. by injection Hg as <-.
  - split; [|done]. split; [intros; discriminate|].
    split; [intros r' Hr'; injection Hr' as <-; congruence|].
    split; [by intros|].
    intros r' Hr' _ _. injection Hr' as <-. rewrite Hp. simpl.
    destruct d; simpl in Hg; try discriminate Hg; by rewrite app_nil_r.
Qed.

(** X9.  What [getSessionId] writes to the console is decided by what its
    last request met ([logs_as_met]): one entry, a network error, when that
    request was rejected; one entry when a 2xx create answer has a body that
    does not parse (a syntax error) or is [null] (a type error); nothing in
    every other case, in particular after a non-2xx answer and after a
    validation that succeeded.  So it logs at most once, always under
    ['Error managing session:'], only when it returns [null], and never
    when it returns an id. *)
Theorem getSessionId_logs_only_failures (w wf : World num) (v : jsval num) :
  getSessionId' w = (inr v, wf) ->
  exists before req,
    sent wf = sent w ++ before ++ [req] /\
    (method req = GET \/ method req = POST) /\
    logs_as_met (server (sent w ++ before) req) req (console w) (console wf) /\
    (truthy v = true -> console wf = console w) /\
    (console wf = console w \/
     (v = null /\
      exists e, console wf = console w ++ [("Error managing session:", e)])).
Proof.
  intros Heq.
  destruct (getSessionId_run VITE_API_URL server w) as (v' & w' & Heq' & Hrun).
  rewrite Heq in Heq'. injection Heq' as <- <-.
  assert (Honce : forall w0 v0 w0',
    create_run' w0 v0 w0' ->
    console w0' = console w0 \/
    (v0 = null /\
     exists e, console w0' = console w0 ++ [("Error managing session:", e)])).
  { intros w0 v0 w0' Hc. create_cases Hc; try (by left); right; split;
      try done; by eexists. }
  session_cases Hrun.
  - exists [], (validation s). split; [done|]. split; [by left|].
    unfold logs_as_met. rewrite app_nil_r, Hsrv.
    split; [|split; [by intros|right; split; [done|by eexists]]].
    split; [done|]. repeat split; intros; discriminate.
  - exists [], (validation s). split; [done|]. split; [by left|].
    unfold logs_as_met. rewrite app_nil_r, Hsrv.
    split; [|split; [done|by left]].
    split; [intros; discriminate|].
    split; [intros r' Hr'; injection Hr' as <-; congruence|].
    split; [done|]. intros; discriminate.
  - destruct (create_run_console _ _ _ Hc) as (Hsent & Hlogs & Hquiet).
    exists [validation s], create. split; [|split; [by right|]].
    { rewrite Hsent. simpl. by rewrite <- app_assoc. }
    split; [exact Hlogs|]. split; [exact Hquiet|].
    apply (Honce _ _ _ Hc).
  - destruct (create_run_console _ _ _ Hc) as (Hsent & Hlogs & Hquiet).
    exists [], create. split; [done|]. split; [by right|].
    rewrite app_nil_r. split; [exact Hlogs|]. split; [exact Hquiet|].
    apply (Honce _ _ _ Hc).
Qed.

(** *** The value of [getHistory] *)

Lemma history_value_truthy (w : World num) (limit : jsval num) :
  exists v w', getHistory' limit w = (inr v, w') /\ truthy v = true.
Proof.
  destruct (getSessionId_run VITE_API_URL server w) as (sid & w1 & Hsid & _).
  rewrite (getHistory_after _ _ _ _ _ _ Hsid). unfold history_step.
  destruct (truthy sid); [|by eexists _, _].
  destruct (server _ _) as [|r]; [by eexists _, _|].
  destruct (ok r); [|by eexists _, _].
  destruct (parsed r) as [data|]; [|by eexists _, _].
  destruct (get_prop data "history") as [e|h]; [by eexists _, _|].
  eexists _, _. split; [done|]. unfold or_else.
  by destruct (truthy h) eqn:Hh.
Qed.

(** X10.  Whatever the service does, the value of [getHistory] is truthy: it is
    never [null] or [undefined], so a caller may read [.length] from it. *)
Theorem getHistory_is_truthy (w : World num) (limit : jsval num) :
  exists v w', getHistory' limit w = (inr v, w') /\ truthy v = true.
Proof. apply history_value_truthy. Qed.

(** *** The endpoints of a session *)

(** X11.  Each endpoint of a session determines the string form of its id, and
    the endpoints of one session differ from one another and from the
    collection endpoint. *)
Theorem session_endpoints_distinct (a b : jsval num) :
  (SESSION_BY_ID VITE_API_URL a = SESSION_BY_ID VITE_API_URL b ->
   to_string_val a = to_string_val b) /\
  (SESSION_HISTORY VITE_API_URL a = SESSION_HISTORY VITE_API_URL b ->
   to_string_val a = to_string_val b) /\
  (SESSION_INTERACTIONS VITE_API_URL a = SESSION_INTERACTIONS VITE_API_URL b ->
   to_string_val a = to_string_val b) /\
  (SESSION_CONTEXT VITE_API_URL a = SESSION_CONTEXT VITE_API_URL b ->
   to_string_val a = to_string_val b) /\
  SESSION_HISTORY VITE_API_URL a <> SESSION_INTERACTIONS VITE_API_URL a /\
  SESSION_HISTORY VITE_API_URL a <> SESSION_CONTEXT VITE_API_URL a /\
  SESSION_INTERACTIONS VITE_API_URL a <> SESSION_CONTEXT VITE_API_URL a /\
  SESSION_BY_ID VITE_API_URL a <> SESSIONS VITE_API_URL /\
  SESSION_HISTORY VITE_API_URL a <> SESSIONS VITE_API_URL /\
  SESSION_INTERACTIONS VITE_API_URL a <> SESSIONS VITE_API_URL /\
  SESSION_CONTEXT VITE_API_URL a <> SESSIONS VITE_API_URL.
Proof.
  unfold SESSION_BY_ID, SESSION_HISTORY, SESSION_INTERACTIONS, SESSION_CONTEXT,
    SESSIONS.
  repeat split; intros Heq;
    repeat (apply (inj (String.append _)) in Heq);
    try discriminate Heq; try done;
    by apply string_app_inj_r in Heq.
Qed.

Lemma validation_of_history_path (s : string) (limit : json num) :
  validation (s +:+ "/history?limit=" +:+ to_string limit)
  = history_request VITE_API_URL (Some (JStr s)) limit.
Proof.
  unfold history_request, SESSION_BY_ID, SESSION_HISTORY. f_equal. simpl.
  by rewrite !string_app_assoc.
Qed.

Lemma truthy_str_app (a b : string) :
  truthy_str b = true -> truthy_str (a +:+ b) = true.
Proof. intros Hb. destruct a; [done|]. reflexivity. Qed.

(** X12.  The stored id goes into the path as it is, unescaped: with the id
    [s/history?limit=n] stored, the request by which [getSessionId]
    validates it is the very request by which [getHistory(n)] fetches the
    history of session [s]. *)
Theorem stored_id_is_spliced_unescaped
    (w : World num) (s : string) (limit : json num) :
  localStorage w !! KEY = Some (s +:+ "/history?limit=" +:+ to_string limit) ->
  exists rest,
    sent (snd (getSessionId' w))
    = sent w ++ history_request VITE_API_URL (Some (JStr s)) limit :: rest.
Proof.
  intros Hk.
  assert (Hs : truthy_str (s +:+ "/history?limit=" +:+ to_string limit) = true)
    by (by apply truthy_str_app).
  rewrite <- validation_of_history_path.
  unfold getSessionId, try_catch, bind, getItem, fetch.
  rewrite Hk. simpl. rewrite Hs.
  destruct (server _ _) as [|r]; [by exists []|].
  destruct (ok r); [by exists []|].
  unfold create_session, bind, fetch. simpl.
  destruct (server _ _) as [|r']; simpl.
  - eexists [_]. by rewrite <- app_assoc.
  - destruct (ok r'); simpl.
    + unfold response_json. destruct (parsed r') as [data|]; simpl.
      * unfold lift. destruct (get_prop data "session_id"); simpl;
          eexists [_]; by rewrite <- app_assoc.
      * eexists [_]. by rewrite <- app_assoc.
    + eexists [_]. by rewrite <- app_assoc.
Qed.
End MoreProperties.

(** * Properties of the callers *)

Section DashboardProperties.
Context {num : Type} `{Number num}.
Variable utf16_length : string -> N.
Variable VITE_API_URL : option string.
Variable server : Server num.

Abbreviation getHistory' := (getHistory VITE_API_URL server).
Abbreviation fetchHistory' :=
  (Dashboard.fetchHistory utf16_length VITE_API_URL server).

Lemma get_length_truthy (v : jsval num) :
  truthy v = true -> exists n, get_length utf16_length v = inr n.
Proof.
  destruct v as [[| | | | |]|]; simpl; intros Ht; try discriminate Ht;
    by eexists.
Qed.

(** X13.  [fetchHistory] never raises, whatever the service does: the value of
    [getHistory(5)] becomes [history], its [length] becomes the count, and
    the duration is kept.  No rejection can go unhandled. *)
Theorem fetchHistory_never_raises (st : Dashboard.State) (w : World num) :
  exists data n w',
    getHistory' (number 5) w = (inr data, w') /\
    get_length utf16_length data = inr n /\
    fetchHistory' st w
    = (inr (Dashboard.mkState data
              (Dashboard.mkStats n
                 (Dashboard.duration (Dashboard.sessionStats st)))), w').
Proof.
  destruct (history_value_truthy VITE_API_URL server w (number 5))
    as (data & w' & Heq & Ht).
  destruct (get_length_truthy data Ht) as (n & Hn).
  exists data, n, w'. split; [done|]. split; [done|].
  unfold Dashboard.fetchHistory, bind. rewrite Heq.
  unfold lift. by rewrite Hn.
Qed.



(** When the service answers with an array of records, the count is the
    number of records. *)
Lemma fetchHistory_counts_records
    (st : Dashboard.State) (w w' : World num) (records : list (json num)) :
  getHistory' (number 5) w = (inr (Some (JArr records)), w') ->
  exists st',
    fetchHistory' st w = (inr st', w') /\
    Dashboard.history st' = Some (JArr records) /\
    Dashboard.count (Dashboard.sessionStats st')
      = number (N.of_nat (length records)).
Proof.
  intros Heq. eexists. split.
  - unfold Dashboard.fetchHistory, bind. rewrite Heq. reflexivity.
  - done.
Qed.
End DashboardProperties.

Section ModuleCProperties.
Context {num : Type} `{Number num}.
Variable type_error : JsError num.

Abbreviation handleCheck' := (ModuleC.handleCheck type_error).

(** X15.  Without a file [handleCheck] does nothing at all.  With one it sends
    exactly one request and, however that ends, leaves [loading] false and
    the chosen file and its preview as they were. *)
Theorem handleCheck_always_stops_loading
    (outcome : AxiosOutcome num) (st : ModuleC.State) :
  (ModuleC.selectedFile st = None ->
   handleCheck' outcome st = (st, ModuleC.mkEffects [] [] [] [])) /\
  (forall name,
     ModuleC.selectedFile st = Some name ->
     let st' := fst (handleCheck' outcome st) in
     ModuleC.loading st' = false /\
     ModuleC.selectedFile st' = Some name /\
     ModuleC.preview st' = ModuleC.preview st /\
     ModuleC.posted (snd (handleCheck' outcome st)) = [ModuleC.DETECT_URL]).
Proof.
  unfold ModuleC.handleCheck. split.
  - by intros ->.
  - intros name ->.
    destruct outcome as [e|data]; [done|].
    destruct (get_prop data "is_real"); [done|].
    by destruct (get_prop data "confidence").
Qed.


Lemma detection_log_agrees (name : string) (is_real confidence : jsval num) :
  ModuleC.verdict_agrees (ModuleC.detection_log name is_real confidence).
Proof.
  unfold ModuleC.verdict_agrees, ModuleC.detection_log. simpl.
  eexists _, (negb (truthy is_real)). split; [reflexivity|].
  split; [reflexivity|]. simpl. by destruct (truthy is_real).
Qed.

(** X16.  With a file chosen, [handleCheck] ends in exactly one of two ways.
    Either the request yielded data other than [null]: the data becomes the
    result, nothing is alerted, and one ['detect'] interaction is logged
    for the file, whose [is_deepfake] and [authenticity] agree.  Or the
    request failed or yielded [null]: one alert, one console error, and
    nothing is logged. *)
Theorem handleCheck_logs_or_alerts
    (outcome : AxiosOutcome num) (st : ModuleC.State) (name : string) :
  ModuleC.selectedFile st = Some name ->
  let st' := fst (handleCheck' outcome st) in
  let eff := snd (handleCheck' outcome st) in
  (ModuleC.alerts eff = [] /\ ModuleC.errors eff = [] /\
   exists data l,
     outcome = Axios_data data /\ data <> JNull /\
     ModuleC.result st' = Some data /\
     ModuleC.launched eff = [l] /\
     l_kind l = Some (JStr "detect") /\
     l_query l = Some (JStr ("Deepfake Analysis: " +:+ name)) /\
     ModuleC.verdict_agrees l) \/
  (ModuleC.launched eff = [] /\
   (exists msg, ModuleC.alerts eff = [msg]) /\
   (exists e, ModuleC.errors eff = [e]) /\
   ((exists e, outcome = Axios_error e) \/ outcome = Axios_data JNull)).
Proof.
  intros Hfile. unfold ModuleC.handleCheck. rewrite Hfile.
  destruct outcome as [e|data].
  - right. simpl. split; [done|]. split; [by eexists|].
    split; [by eexists|]. left. by exists e.
  - destruct data as [|b|n|s|items|fields];
      try (left; simpl; split; [done|]; split; [done|];
           eexists _, _; split; [reflexivity|]; split; [discriminate|];
           split; [reflexivity|]; split; [reflexivity|];
           split; [reflexivity|]; split; [reflexivity|];
           apply detection_log_agrees).
    right. simpl. split; [done|]. split; [by eexists|].
    split; [by eexists|]. by right.
Qed.
End ModuleCProperties.

Section ModuleAProperties.
Context {num : Type} `{Number num}.
Variable utf16_length : string -> N.
Variable type_error : JsError num.
Variable description : string.

Abbreviation State := (ModuleA.State (num := num)).
Abbreviation arrive' := (ModuleA.arrive utf16_length type_error description).
Abbreviation run' := (ModuleA.run utf16_length type_error description).
Abbreviation rounds' := (ModuleA.rounds utf16_length type_error description).
Abbreviation round' := (ModuleA.round utf16_length type_error description).

Lemma arrive_unusable (outcome : AxiosOutcome num) (st : State) :
  ModuleA.unusable outcome ->
  exists e, arrive' outcome st = ModuleA.polling_error e st.
Proof.
  destruct outcome as [e|data]; simpl.
  - intros _. by exists e.
  - intros ->. by exists type_error.
Qed.

(** X17.  Failed status requests never end the polling: after any sequence of
    timer ticks and of answers that failed (or carried [null]), the interval
    is as it was, [loading] is as it was, nothing has been alerted and
    nothing logged to the session.  Against a backend that stays
    unreachable the page polls for ever. *)
Theorem failed_polls_never_stop
    (events : list (ModuleA.Event (num := num))) (st : State) :
  Forall ModuleA.harmless events ->
  let st' := run' events st in
  ModuleA.polling st' = ModuleA.polling st /\
  ModuleA.loading st' = ModuleA.loading st /\
  ModuleA.alerts st' = ModuleA.alerts st /\
  ModuleA.launched st' = ModuleA.launched st /\
  ModuleA.progress st' = ModuleA.progress st.
Proof.
  intros Hev. revert st.
  induction Hev as [|ev events Hharmless _ IH]; intros st; [done|].
  unfold ModuleA.run in *. simpl.
  specialize (IH (ModuleA.step utf16_length type_error description st ev)).
  simpl in IH. destruct IH as (-> & -> & -> & -> & ->).
  destruct ev as [|outcome]; simpl.
  - unfold ModuleA.tick. destruct st as [a [] l pr sk m al er la]; simpl; done.
  - destruct (arrive_unusable outcome st Hharmless) as (e & ->). done.
Qed.

Lemma round_pending (outcome : AxiosOutcome num) (st : State) :
  ModuleA.pending outcome ->
  ModuleA.polling st = true ->
  ModuleA.loading st = true ->
  let st' := round' st outcome in
  ModuleA.attempts st' = S (ModuleA.attempts st) /\
  ModuleA.launched st' = ModuleA.launched st /\
  if Nat.leb ModuleA.maxAttempts (S (ModuleA.attempts st)) then
    ModuleA.polling st' = false /\ ModuleA.loading st' = false /\
    ModuleA.alerts st'
      = ModuleA.alerts st ++ ["Generation timed out. Please check backend logs."]
  else
    ModuleA.polling st' = true /\ ModuleA.loading st' = true /\
    ModuleA.alerts st' = ModuleA.alerts st.
Proof.
  intros Hpending Hpoll Hload.
  destruct outcome as [e|data]; [done|].
  destruct Hpending as (status & Hstatus & Hnc & Hnf).
  unfold ModuleA.round, ModuleA.tick. rewrite Hpoll.
  unfold ModuleA.arrive. rewrite Hstatus, Hnc, Hnf.
  cbn [ModuleA.attempts ModuleA.polling ModuleA.loading ModuleA.alerts
       ModuleA.launched].
  destruct (Nat.leb ModuleA.maxAttempts (S (ModuleA.attempts st)));
    cbn [ModuleA.attempts ModuleA.polling ModuleA.loading ModuleA.alerts
         ModuleA.launched];
    rewrite ?Hload; done.
Qed.

(** X18.  While the job is reported neither completed nor failed, and every
    answer comes before the next tick, polling goes on for 359 rounds and
    stops at the 360th: then, and not before, the interval is cleared,
    [loading] is reset and the time-out is alerted.  No interaction is
    logged. *)
Theorem polling_times_out_at_360
    (outcomes : list (AxiosOutcome num)) (sketch0 matches0 : jsval num) :
  Forall ModuleA.pending outcomes ->
  length outcomes <= 360 ->
  let st' := rounds' outcomes (ModuleA.started sketch0 matches0) in
  ModuleA.attempts st' = length outcomes /\
  ModuleA.launched st' = [] /\
  (length outcomes < 360 ->
   ModuleA.polling st' = true /\ ModuleA.loading st' = true /\
   ModuleA.alerts st' = []) /\
  (length outcomes = 360 ->
   ModuleA.polling st' = false /\ ModuleA.loading st' = false /\
   ModuleA.alerts st' = ["Generation timed out. Please check backend logs."]).
Proof.
  unfold ModuleA.rounds.
  induction outcomes as [|outcome outcomes IH] using rev_ind;
    intros Hpending Hlen.
  - simpl. split; [done|]. split; [done|]. split; [done|]. intros; lia.
  - apply Forall_app in Hpending as [Hrest Hp].
    apply Forall_inv in Hp.
    rewrite length_app in *. simpl in *.
    rewrite fold_left_app. simpl.
    destruct IH as (Hatt & Hlaunched & Hbefore & _); [done|lia|].
    destruct Hbefore as (Hpoll & Hload & Halerts); [lia|].
    pose proof (round_pending outcome _ Hp Hpoll Hload) as (Hatt' & Hl' & Hcase).
    rewrite Hatt in *. rewrite Halerts, Hlaunched in *.
    split; [rewrite Hatt'; lia|]. split; [done|].
    split.
    + intros Hlt.
      destruct (Nat.leb ModuleA.maxAttempts (S (length outcomes))) eqn:Hleb.
      * apply Nat.leb_le in Hleb. unfold ModuleA.maxAttempts in Hleb. lia.
      * done.
    + intros Heq.
      destruct (Nat.leb ModuleA.maxAttempts (S (length outcomes))) eqn:Hleb.
      * done.
      * apply Nat.leb_gt in Hleb. unfold ModuleA.maxAttempts in Hleb. lia.
Qed.

(** X19.  When the job is reported completed, the interval is cleared, [loading]
    is reset, the progress is 100 and one ['generate'] interaction is
    logged whose [matches_found] is the number of the matches now shown:
    the length of the array the service sent, or zero, with an empty list
    shown, when it sent none. *)
Theorem completion_logs_the_matches_shown (data : json num) (st : State) :
  (forall n, n <> 0%N -> num_truthy (num_of_N n) = true) ->
  get_prop data "status" = inr (Some (JStr "completed")) ->
  let st' := arrive' (Axios_data data) st in
  ModuleA.polling st' = false /\
  ModuleA.loading st' = false /\
  ModuleA.progress st' = number 100 /\
  ModuleA.sketch st' = ModuleA.prop data "sketch" /\
  ModuleA.alerts st' = ModuleA.alerts st /\
  (forall found,
     ModuleA.prop data "matches" = Some (JArr found) ->
     ModuleA.matches st' = Some (JArr found) /\
     ModuleA.launched st'
     = ModuleA.launched st ++
       [ModuleA.generation_log description (number (N.of_nat (length found)))]) /\
  (ModuleA.prop data "matches" = None \/
   ModuleA.prop data "matches" = Some JNull ->
   ModuleA.matches st' = empty_array /\
   ModuleA.launched st'
   = ModuleA.launched st ++ [ModuleA.generation_log description (number 0)]).
Proof.
  intros Hnum Hstatus. unfold ModuleA.arrive. rewrite Hstatus. simpl.
  split; [done|]. split; [done|]. split; [done|]. split; [done|].
  split; [done|]. split.
  - intros found ->. split; [done|]. do 3 f_equal.
    unfold optional_length, or_else. simpl.
    destruct found as [|x found]; simpl.
    + by destruct (num_truthy (num_of_N (N.of_nat 0))).
    + by rewrite Hnum.
  - intros [-> | ->]; done.
Qed.
End ModuleAProperties.

Section ModuleDProperties.

Local Open Scope Z_scope.

Lemma to_int32_range (z : Z) : - 2 ^ 31 <= ModuleD.to_int32 z < 2 ^ 31.
Proof.
  unfold ModuleD.to_int32.
  pose proof (Z.mod_pos_bound (z + 2 ^ 31) (2 ^ 32)). lia.
Qed.

Lemma hash_step_bound (hash c : Z) :
  ModuleD.code_unit c ->
  Z.abs (ModuleD.shl hash 5 - hash) <= 2 ^ 31 + Z.abs hash /\
  Z.abs (ModuleD.hash_step hash c) <= Z.abs hash + (2 ^ 31 + 65535).
Proof.
  unfold ModuleD.code_unit, ModuleD.hash_step, ModuleD.shl. intros Hc.
  pose proof (to_int32_range (Z.shiftl (ModuleD.to_int32 hash) 5)). lia.
Qed.

Lemma fold_hash_bound (seed : ModuleD.js_string) (acc : Z) :
  Forall ModuleD.code_unit seed ->
  Z.abs (fold_left ModuleD.hash_step seed acc)
  <= Z.abs acc + Z.of_nat (length seed) * (2 ^ 31 + 65535).
Proof.
  intros Hseed. revert acc.
  induction Hseed as [|c seed Hc _ IH]; intros acc; simpl length.
  - simpl. lia.
  - simpl fold_left. specialize (IH (ModuleD.hash_step acc c)).
    pose proof (hash_step_bound acc c Hc). lia.
Qed.

(** X21.  On a seed of at most 4,194,000 code units the loop of [generateName]
    stays within the integers a double holds exactly: after every prefix of
    the seed both [hash] and the intermediate [(hash << 5) - hash] are
    below 2^53 in magnitude. *)
Theorem hash_stays_exact (seed done rest : ModuleD.js_string) :
  Forall ModuleD.code_unit seed ->
  Z.of_nat (length seed) <= 4194000 ->
  seed = done ++ rest ->
  ModuleD.exact (ModuleD.hash_of done) /\
  ModuleD.exact (ModuleD.shl (ModuleD.hash_of done) 5 - ModuleD.hash_of done).
Proof.
  intros Hseed Hlen ->. apply Forall_app in Hseed as [Hdone _].
  rewrite length_app in Hlen.
  pose proof (fold_hash_bound done 0 Hdone) as Hbound.
  fold (ModuleD.hash_of done) in Hbound.
  assert (Hh : Z.abs (ModuleD.hash_of done) <= 4194000 * (2 ^ 31 + 65535))
    by lia.
  unfold ModuleD.exact. split; [lia|].
  unfold ModuleD.shl.
  pose proof (to_int32_range
                (Z.shiftl (ModuleD.to_int32 (ModuleD.hash_of done)) 5)).
  lia.
Qed.

Lemma name_at_in (names : list string) (i : Z) :
  names <> [] ->
  let j := Z.abs i mod Z.of_nat (length names) in
  ModuleD.name_at names j ∈ names.
Proof.
  intros Hne j. unfold ModuleD.name_at.
  assert (Hpos : 0 < Z.of_nat (length names)) by (destruct names; simpl; [done|lia]).
  pose proof (Z.mod_pos_bound (Z.abs i) _ Hpos) as Hj. fold j in Hj.
  destruct (names !! Z.to_nat j) as [name|] eqn:Hlook.
  - by eapply list_elem_of_lookup_2.
  - apply lookup_ge_None in Hlook. lia.
Qed.

(** X22.  [generateName] never shows [undefined]: for a seed that is missing or
    empty it is ["Unknown"], and for every other seed a first name and a
    last name of the two tables, with a space between. *)
Theorem generateName_is_a_name (seedStr : option ModuleD.js_string) :
  match seedStr with
  | None => ModuleD.generateName seedStr = "Unknown"%string
  | Some [] => ModuleD.generateName seedStr = "Unknown"%string
  | Some _ =>
      exists first last,
        first ∈ ModuleD.FIRST_NAMES /\ last ∈ ModuleD.LAST_NAMES /\
        ModuleD.generateName seedStr = (first +:+ " " +:+ last)%string
  end.
Proof.
  destruct seedStr as [[|c seed]|]; [done| |done].
  eexists _, _. split; [|split; [|reflexivity]].
  - by apply name_at_in.
  - by apply name_at_in.
Qed.

(** *** Base ids *)

Lemma is_extension_dot (a b : ModuleD.js_string) :
  ModuleD.is_extension (a ++ 46 :: b) = false.
Proof.
  unfold ModuleD.is_extension.
  destruct (a ++ 46 :: b) eqn:Heq; [done|]. rewrite <- Heq.
  apply not_true_is_false. intros Hall.
  rewrite forallb_app in Hall. apply andb_true_iff in Hall as [_ Hall].
  simpl in Hall. discriminate Hall.
Qed.

(** The extension is the part after the last dot. *)
Lemma strip_extension_app (pre ext : ModuleD.js_string) :
  ModuleD.is_extension ext = true ->
  ModuleD.strip_extension (pre ++ 46 :: ext) = pre.
Proof.
  intros Hext. induction pre as [|c pre IH]; simpl.
  - by rewrite Hext.
  - rewrite is_extension_dot, andb_false_r. by rewrite IH.
Qed.

Lemma starts_with_true (sep s : ModuleD.js_string) :
  ModuleD.starts_with sep s = true -> exists b, s = sep ++ b.
Proof.
  revert s. induction sep as [|a sep IH]; intros s Hs; simpl in Hs.
  - by exists s.
  - destruct s as [|c s]; [done|].
    apply andb_true_iff in Hs as [Hac Hs]. apply Z.eqb_eq in Hac as ->.
    destruct (IH s Hs) as (b & ->). by exists b.
Qed.

Lemma occurs_tail (sep s : ModuleD.js_string) (c : Z) :
  ~ ModuleD.occurs sep (c :: s) -> ~ ModuleD.occurs sep s.
Proof. intros Hno (a & b & ->). apply Hno. by exists (c :: a), b. Qed.

(** Without an occurrence of the separator nothing is cut off. *)
Lemma before_first_absent (sep s : ModuleD.js_string) :
  ~ ModuleD.occurs sep s -> ModuleD.before_first sep s = s.
Proof.
  induction s as [|c s IH]; intros Hno.
  - simpl. by destruct (ModuleD.starts_with sep []).
  - simpl. destruct (ModuleD.starts_with sep (c :: s)) eqn:Hstart.
    + destruct (starts_with_true _ _ Hstart) as (b & Hb).
      exfalso. apply Hno. exists [], b. by rewrite Hb.
    + f_equal. apply IH. by eapply occurs_tail.
Qed.

Lemma before_first_cons (sep s : ModuleD.js_string) (c : Z) :
  ModuleD.before_first sep (c :: s)
  = if ModuleD.starts_with sep (c :: s) then []
    else c :: ModuleD.before_first sep s.
Proof. reflexivity. Qed.

(** An occurrence of [_aug] cannot begin inside [id] and end in a [_aug]
    that follows it. *)
Lemma aug_first_after (id k : ModuleD.js_string) :
  ~ ModuleD.occurs (ModuleD.lit "_aug") id ->
  ModuleD.before_first (ModuleD.lit "_aug") (id ++ ModuleD.lit "_aug" ++ k) = id.
Proof.
  induction id as [|c id IH]; intros Hno; [done|].
  change ((c :: id) ++ ModuleD.lit "_aug" ++ k)
    with (c :: (id ++ ModuleD.lit "_aug" ++ k)).
  rewrite before_first_cons.
  destruct (ModuleD.starts_with (ModuleD.lit "_aug")
              (c :: id ++ ModuleD.lit "_aug" ++ k)) eqn:Hstart.
  - exfalso. clear IH.
    change (ModuleD.lit "_aug") with [95; 97; 117; 103] in *.
    destruct id as [|x1 [|x2 [|x3 rest]]];
      cbn [ModuleD.starts_with app] in Hstart;
      repeat (let Heq := fresh "Heq" in
              apply andb_true_iff in Hstart as [Heq Hstart];
              apply Z.eqb_eq in Heq);
      try discriminate; subst.
    apply Hno. by exists [], rest.
  - f_equal. apply IH. by eapply occurs_tail.
Qed.

(** X23.  An augmented copy [<id>_aug<k>.<ext>] has the base id of its original
    [<id>.<ext>], namely [id], and so the same generated name; [id] is any
    string in which [_aug] does not occur. *)
Theorem augmented_copy_shares_base_id (id k ext : ModuleD.js_string) :
  ~ ModuleD.occurs (ModuleD.lit "_aug") id ->
  ModuleD.is_extension ext = true ->
  let original := id ++ 46 :: ext in
  let copy := id ++ ModuleD.lit "_aug" ++ k ++ 46 :: ext in
  ModuleD.getBaseId (Some original) = id /\
  ModuleD.getBaseId (Some copy) = id /\
  ModuleD.generateName (Some (ModuleD.getBaseId (Some copy)))
  = ModuleD.generateName (Some (ModuleD.getBaseId (Some original))).
Proof.
  intros Hno Hext original copy.
  assert (Horig : ModuleD.getBaseId (Some original) = id).
  { unfold ModuleD.getBaseId, original.
    destruct (id ++ 46 :: ext) eqn:Heq; [by destruct id|]. rewrite <- Heq.
    rewrite strip_extension_app by done. by apply before_first_absent. }
  assert (Hcopy : ModuleD.getBaseId (Some copy) = id).
  { unfold ModuleD.getBaseId, copy.
    destruct (id ++ ModuleD.lit "_aug" ++ k ++ 46 :: ext) eqn:Heq;
      [by destruct id|]. rewrite <- Heq.
    replace (id ++ ModuleD.lit "_aug" ++ k ++ 46 :: ext)
      with ((id ++ ModuleD.lit "_aug" ++ k) ++ 46 :: ext)
      by (by rewrite <- !app_assoc).
    rewrite strip_extension_app by done. by apply aug_first_after. }
  by rewrite Horig, Hcopy.
Qed.

(** *** The crime distribution *)

Local Close Scope Z_scope.

Lemma total_insert_fresh (m : gmap string ModuleD.Tally) k t :
  m !! k = None ->
  ModuleD.total (<[k := t]> m) = ModuleD.tally_count t + ModuleD.total m.
Proof.
  intros Hk. unfold ModuleD.total.
  rewrite map_fold_insert_L; [done| |done]. intros. lia.
Qed.

Lemma total_insert_present (m : gmap string ModuleD.Tally) k t0 t :
  m !! k = Some t0 ->
  ModuleD.total (<[k := t]> m) + ModuleD.tally_count t0
  = ModuleD.tally_count t + ModuleD.total m.
Proof.
  intros Hk.
  rewrite <- (insert_delete_eq m k t).
  rewrite total_insert_fresh by apply lookup_delete_eq.
  unfold ModuleD.total.
  rewrite (map_fold_delete_L _ _ k t0 m); [lia| |done]. intros. lia.
Qed.

Lemma not_inherited_proto (crime : string) :
  ModuleD.inherited crime = false -> String.eqb crime "__proto__" = false.
Proof.
  unfold ModuleD.inherited, ModuleD.prototype_names. simpl.
  intros Hno. repeat (apply orb_false_iff in Hno as [? Hno]). done.
Qed.

(** The tally of [crime] in [m], as a number. *)
Lemma add_crime_counts (m : gmap string ModuleD.Tally) (crime : string) :
  ModuleD.inherited crime = false ->
  map_Forall (fun _ t => exists n, t = ModuleD.Count (S n)) m ->
  let m' := ModuleD.add_crime m crime in
  map_Forall (fun _ t => exists n, t = ModuleD.Count (S n)) m' /\
  ModuleD.total m' = S (ModuleD.total m) /\
  (forall k,
     ModuleD.tally_count (default (ModuleD.Count 0) (m' !! k))
     = ModuleD.tally_count (default (ModuleD.Count 0) (m !! k))
       + (if String.eqb k crime then 1 else 0)).
Proof.
  intros Hplain Hm. unfold ModuleD.add_crime.
  rewrite (not_inherited_proto crime Hplain), Hplain.
  assert (Hother : forall k t,
    ModuleD.tally_count (default (ModuleD.Count 0) (<[crime := t]> m !! k))
    = if String.eqb k crime then ModuleD.tally_count t
      else ModuleD.tally_count (default (ModuleD.Count 0) (m !! k))).
  { intros k t. destruct (String.eqb_spec k crime) as [->|Hne].
    - by rewrite lookup_insert_eq.
    - by rewrite lookup_insert_ne. }
  destruct (m !! crime) as [[n|]|] eqn:Hk.
  - split; [|split].
    + apply map_Forall_insert_2; [by exists n|done].
    + pose proof (total_insert_present m crime _ (ModuleD.Count (S n)) Hk).
      simpl in *. lia.
    + intros k. rewrite Hother.
      destruct (String.eqb_spec k crime) as [->|Hne]; [|lia].
      rewrite Hk. simpl. lia.
  - destruct (Hm crime _ Hk) as (n & Hn). discriminate Hn.
  - split; [|split].
    + apply map_Forall_insert_2; [by exists 0|done].
    + by rewrite total_insert_fresh.
    + intros k. rewrite Hother.
      destruct (String.eqb_spec k crime) as [->|Hne]; [|lia].
      by rewrite Hk.
Qed.

Lemma fold_add_crime (labels : list string) (m : gmap string ModuleD.Tally) :
  Forall (fun crime => ModuleD.inherited crime = false) labels ->
  map_Forall (fun _ t => exists n, t = ModuleD.Count (S n)) m ->
  let m' := fold_left ModuleD.add_crime labels m in
  map_Forall (fun _ t => exists n, t = ModuleD.Count (S n)) m' /\
  ModuleD.total m' = ModuleD.total m + length labels /\
  (forall k,
     ModuleD.tally_count (default (ModuleD.Count 0) (m' !! k))
     = ModuleD.tally_count (default (ModuleD.Count 0) (m !! k))
       + ModuleD.occurrences k labels).
Proof.
  intros Hplain. revert m.
  induction Hplain as [|crime labels Hcrime _ IH]; intros m Hm.
  - simpl. split; [done|]. split; [lia|]. intros k.
    unfold ModuleD.occurrences. simpl. lia.
  - destruct (add_crime_counts m crime Hcrime Hm) as (Hm1 & Htotal1 & Hcount1).
    destruct (IH _ Hm1) as (Hm' & Htotal & Hcount).
    simpl. split; [done|]. split; [rewrite Htotal, Htotal1; lia|].
    intros k. rewrite Hcount, Hcount1.
    unfold ModuleD.occurrences. simpl.
    destruct (String.eqb k crime); simpl; lia.
Qed.

Section WithNumbers.
Context {num : Type} `{Number num}.

(** X24.  When no crime type is the name of a member every object inherits, the
    counts of the distribution add up to the number of suspects, and the
    count under each crime is the number of suspects of that crime (a
    missing or falsy crime type counting as ["Unknown"]). *)
Theorem crime_counts_add_up (suspects : list (jsval num)) :
  Forall (fun c => ModuleD.inherited (ModuleD.crime_of c) = false) suspects ->
  let distribution := ModuleD.crime_distribution suspects in
  ModuleD.total distribution = length suspects /\
  forall crime,
    distribution !! crime
    = match ModuleD.occurrences crime (map ModuleD.crime_of suspects) with
      | O => None
      | S n => Some (ModuleD.Count (S n))
      end.
Proof.
  intros Hplain distribution.
  assert (Hlabels : Forall (fun crime => ModuleD.inherited crime = false)
                      (map ModuleD.crime_of suspects))
    by (by apply Forall_map).
  destruct (fold_add_crime _ ∅ Hlabels) as (Hpos & Htotal & Hcount);
    [apply map_Forall_empty|].
  fold (ModuleD.crime_distribution suspects) in Hpos, Htotal, Hcount.
  fold distribution in Hpos, Htotal, Hcount.
  split.
  - rewrite Htotal, length_map. unfold ModuleD.total.
    by rewrite map_fold_empty.
  - intros crime. specialize (Hcount crime).
    rewrite lookup_empty in Hcount. simpl in Hcount.
    destruct (distribution !! crime) as [t|] eqn:Hlook; simpl in Hcount.
    + destruct (Hpos crime t Hlook) as (n & ->). simpl in Hcount.
      by rewrite <- Hcount.
    + by rewrite <- Hcount.
Qed.
End WithNumbers.
End ModuleDProperties.

Section DictationProperties.
Variable trim : string -> string.

Lemma fold_interim (results : list ModuleA.SpeechResult) (acc : string) :
  Forall (fun r => ModuleA.isFinal r = false) results ->
  fold_left
    (fun finalTranscript r =>
       if ModuleA.isFinal r
       then finalTranscript +:+ (ModuleA.transcript r +:+ " ")
       else finalTranscript) results acc = acc.
Proof.
  intros Hall. induction Hall as [|r results Hr _ IH]; [done|].
  simpl. by rewrite Hr.
Qed.

Lemma fold_final_grows (results : list ModuleA.SpeechResult) (acc : string) :
  truthy_str acc = true ->
  truthy_str
    (fold_left
       (fun finalTranscript r =>
          if ModuleA.isFinal r
          then finalTranscript +:+ (ModuleA.transcript r +:+ " ")
          else finalTranscript) results acc) = true.
Proof.
  revert acc. induction results as [|r results IH]; intros acc Hacc; [done|].
  simpl. apply IH. destruct (ModuleA.isFinal r); [|done].
  by destruct acc.
Qed.

(** X20.  Interim results never alter the description: [onresult] changes it
    exactly when one of the results from [resultIndex] on is final, and then
    to the trimmed old description followed by the final transcripts. *)
Theorem interim_results_keep_description
    (resultIndex : nat) (results : list ModuleA.SpeechResult) (prev : string) :
  (Forall (fun r => ModuleA.isFinal r = false) (drop resultIndex results) ->
   ModuleA.onresult trim resultIndex results prev = prev) /\
  (Exists (fun r => ModuleA.isFinal r = true) (drop resultIndex results) ->
   ModuleA.onresult trim resultIndex results prev
   = trim (prev +:+ " " +:+ ModuleA.final_transcript resultIndex results)).
Proof.
  unfold ModuleA.onresult, ModuleA.final_transcript. split.
  - intros Hall. by rewrite fold_interim.
  - intros Hex.
    enough (Htruthy : forall acc,
      truthy_str
        (fold_left
           (fun finalTranscript r =>
              if ModuleA.isFinal r
              then finalTranscript +:+ (ModuleA.transcript r +:+ " ")
              else finalTranscript) (drop resultIndex results) acc) = true)
      by (by rewrite Htruthy).
    induction Hex as [r rest Hr|r rest _ IH]; intros acc; simpl.
    + rewrite Hr. apply fold_final_grows.
      apply truthy_str_app. by destruct (ModuleA.transcript r).
    + destruct (ModuleA.isFinal r); apply IH.
Qed.
End DictationProperties.

(** * The further properties on concrete inputs *)

Lemma updateContext_without_session_witness :
  let w := fresh_browser in
  getSessionId None unreachable w
    = (inr null, snd (getSessionId None unreachable w)) /\
  truthy (null : jsval Z) = false /\
  updateContext None unreachable (Some (JObj [("case", JStr "A-17")])) w
    = (inr false, snd (getSessionId None unreachable w)).
Proof.
  intros w.
  assert (Hsid : getSessionId None unreachable w
                 = (inr null, snd (getSessionId None unreachable w)))
    by reflexivity.
  assert (Hfalsy : truthy (null : jsval Z) = false) by reflexivity.
  split; [exact Hsid|]. split; [exact Hfalsy|].
  exact (updateContext_without_session None unreachable w _ null
           (Some (JObj [("case", JStr "A-17")])) Hsid Hfalsy).
Defined.

Lemma updateContext_sends_one_put_witness :
  let server := by_method (json_reply (JObj [])) not_found no_content in
  let w := browser_with_id "s1" in
  let context : jsval Z := Some (JObj [("case", JStr "A-17")]) in
  getSessionId None server w
    = (inr (Some (JStr "s1")), snd (getSessionId None server w)) /\
  truthy (Some (JStr "s1") : jsval Z) = true /\
  exists w',
    updateContext None server context w = (inr true, w') /\
    sent w' =
      sent (snd (getSessionId None server w)) ++
      [mkRequest PUT "http://localhost:8086/api/sessions/s1/context"
         [("Content-Type", "application/json")]
         (Some (JObj [("context_data", JObj [("case", JStr "A-17")])]))].
Proof.
  intros server w context.
  assert (Hsid : getSessionId None server w
                 = (inr (Some (JStr "s1")), snd (getSessionId None server w)))
    by reflexivity.
  assert (Htruthy : truthy (Some (JStr "s1") : jsval Z) = true) by reflexivity.
  split; [exact Hsid|]. split; [exact Htruthy|].
  destruct (updateContext_sends_one_put None server w _ (Some (JStr "s1"))
              context Hsid Htruthy) as (b & w' & Heq & Hsent & _ & Hacc).
  assert (Hb : b = true).
  { apply Hacc. exists no_content. split; reflexivity. }
  rewrite Hb in Heq. exists w'. split; [exact Heq|exact Hsent].
Defined.

Lemma logInteraction_reports_acceptance_witness :
  let server := by_method (json_reply (JObj [])) no_content not_found in
  let w := browser_with_id "s1" in
  getSessionId None server w
    = (inr (Some (JStr "s1")), snd (getSessionId None server w)) /\
  truthy (Some (JStr "s1") : jsval Z) = true /\
  fst (logInteraction None server (Some (JStr "view")) None None None w)
    = inr true.
Proof.
  intros server w.
  assert (Hsid : getSessionId None server w
                 = (inr (Some (JStr "s1")), snd (getSessionId None server w)))
    by reflexivity.
  assert (Htruthy : truthy (Some (JStr "s1") : jsval Z) = true) by reflexivity.
  split; [exact Hsid|]. split; [exact Htruthy|].
  destruct (logInteraction_reports_acceptance None server w _
              (Some (JStr "s1")) (JStr "view") None None None Hsid Htruthy)
    as (b & w' & Heq & _ & Hacc).
  assert (Hb : b = true).
  { apply Hacc. exists no_content. split; reflexivity. }
  rewrite Heq, Hb. reflexivity.
Defined.

Lemma operations_keep_other_keys_witness :
  let server := by_method not_found (session_reply (JStr "s2")) not_found in
  let w := mkWorld (<["theme" := "dark"]> (localStorage (browser_with_id "s1")))
             [] [] : World Z in
  "theme" <> SESSION_STORAGE_KEY /\
  localStorage (snd (getSessionId None server w)) !! "theme" = Some "dark" /\
  localStorage (snd (getHistory None server None w))
    = localStorage (snd (getSessionId None server w)).
Proof.
  intros server w.
  assert (Hkey : "theme" <> SESSION_STORAGE_KEY) by discriminate.
  destruct (operations_keep_other_keys None server w None None None None
              None None) as (Hframe & _ & Hhistory & _).
  split; [exact Hkey|].
  split; [rewrite (Hframe "theme" Hkey); reflexivity|exact Hhistory].
Defined.

Lemma failed_resolution_keeps_storage_witness :
  let server := by_method not_found not_found not_found in
  (forall h, undelivered (server h (create_request None))) /\
  localStorage (snd (getSessionId None server (browser_with_id "s1")))
    = localStorage (browser_with_id "s1").
Proof.
  intros server.
  assert (Hdown : forall h, undelivered (server h (create_request None)))
    by (intros h; simpl; left; reflexivity).
  split; [exact Hdown|].
  exact (failed_resolution_keeps_storage None server (browser_with_id "s1")
           Hdown).
Defined.

Lemma rejected_validation_creates_nothing_witness :
  let w := browser_with_id "s1" in
  localStorage w !! SESSION_STORAGE_KEY = Some "s1" /\
  "s1" <> "" /\
  unreachable (sent w)
    (plain_get (SESSION_BY_ID None (Some (JStr "s1") : jsval Z))) = Rejected /\
  exists w',
    getSessionId None unreachable w = (inr null, w') /\
    sent w' = [plain_get "http://localhost:8086/api/sessions/s1"] /\
    localStorage w' = localStorage w.
Proof.
  intros w.
  assert (Hk : localStorage w !! SESSION_STORAGE_KEY = Some "s1") by reflexivity.
  assert (Hs : "s1" <> "") by discriminate.
  assert (Hrej : unreachable (sent w)
            (plain_get (SESSION_BY_ID None (Some (JStr "s1") : jsval Z)))
          = Rejected) by reflexivity.
  split; [exact Hk|]. split; [exact Hs|]. split; [exact Hrej|].
  destruct (rejected_validation_creates_nothing None unreachable w "s1"
              Hk Hs Hrej) as (w' & Heq & Hsent & Hst & _).
  exists w'. split; [exact Heq|]. split; [exact Hsent|exact Hst].
Defined.

Lemma returned_id_is_stored_witness :
  let server := by_method not_found (session_reply (JStr "s1")) not_found in
  let w1 := snd (getSessionId None server fresh_browser) in
  getSessionId None server fresh_browser = (inr (Some (JStr "s1")), w1) /\
  truthy (Some (JStr "s1") : jsval Z) = true /\
  localStorage w1 !! SESSION_STORAGE_KEY = Some "s1".
Proof.
  intros server w1.
  assert (Heq : getSessionId None server fresh_browser
                = (inr (Some (JStr "s1")), w1)) by reflexivity.
  assert (Htruthy : truthy (Some (JStr "s1") : jsval Z) = true) by reflexivity.
  split; [exact Heq|]. split; [exact Htruthy|].
  exact (returned_id_is_stored None server fresh_browser w1 _ Heq Htruthy).
Defined.

Lemma returned_id_is_validated_next_witness :
  let server :=
    by_method (json_reply (JObj [])) (session_reply (JStr "s1")) not_found in
  let w1 := snd (getSessionId None server fresh_browser) in
  getSessionId None server fresh_browser = (inr (Some (JStr "s1")), w1) /\
  "s1" <> "" /\
  confirms None server "s1" /\
  fst (getSessionId None server w1) = inr (Some (JStr "s1")) /\
  sent (snd (getSessionId None server w1))
  = [create_request None; plain_get "http://localhost:8086/api/sessions/s1"].
Proof.
  intros server w1.
  assert (Heq : getSessionId None server fresh_browser
                = (inr (Some (JStr "s1")), w1)) by reflexivity.
  assert (Hs : "s1" <> "") by discriminate.
  assert (Hconf : confirms None server "s1").
  { intros h. exists (json_reply (JObj [])). split; reflexivity. }
  split; [exact Heq|]. split; [exact Hs|]. split; [exact Hconf|].
  rewrite (returned_id_is_validated_next None server fresh_browser w1 "s1"
             Heq Hs Hconf).
  split; reflexivity.
Defined.

Lemma getSessionId_logs_only_failures_witness :
  let server := by_method not_found not_found not_found in
  let w := browser_with_id "s1" in
  getSessionId None server w = (inr null, snd (getSessionId None server w)) /\
  server [plain_get (SESSION_BY_ID None (Some (JStr "s1") : jsval Z))]
    (create_request None) = Responded not_found /\
  ok not_found = false /\
  console (snd (getSessionId None server w)) = console w.
Proof.
  intros server w.
  assert (Heq : getSessionId None server w
                = (inr null, snd (getSessionId None server w)))
    by reflexivity.
  assert (Hsrv : server
                   [plain_get (SESSION_BY_ID None (Some (JStr "s1") : jsval Z))]
                   (create_request None) = Responded not_found)
    by reflexivity.
  assert (Hok : ok not_found = false) by reflexivity.
  split; [exact Heq|]. split; [exact Hsrv|]. split; [exact Hok|].
  destruct (getSessionId_logs_only_failures None server w _ null Heq)
    as (before & req & Hsent & _ & Hlogs & _).
  assert (Hlast :
    [plain_get (SESSION_BY_ID None (Some (JStr "s1") : jsval Z))]
      ++ [create_request None] = before ++ [req]) by exact Hsent.
  apply app_inj_tail in Hlast as [Hbefore Hreq].
  rewrite <- Hbefore, <- Hreq in Hlogs.
  destruct Hlogs as (_ & Hrefused & _).
  exact (Hrefused not_found Hsrv Hok).
Defined.

Lemma session_endpoints_distinct_witness :
  let a : jsval Z := Some (JStr "s1") in
  let b : jsval Z := Some (JArr [JStr "s1"]) in
  SESSION_INTERACTIONS None a = SESSION_INTERACTIONS None b /\
  to_string_val a = to_string_val b /\
  SESSION_HISTORY None a <> SESSION_INTERACTIONS None a.
Proof.
  intros a b.
  assert (Heq : SESSION_INTERACTIONS None a = SESSION_INTERACTIONS None b)
    by reflexivity.
  destruct (session_endpoints_distinct None a b)
    as (_ & _ & Hinj & _ & Hne & _).
  split; [exact Heq|]. split; [exact (Hinj Heq)|exact Hne].
Defined.

Lemma stored_id_is_spliced_unescaped_witness :
  let w := browser_with_id "s1/history?limit=5" in
  localStorage w !! SESSION_STORAGE_KEY
    = Some ("s1" +:+ "/history?limit=" +:+ to_string (JNum 5%Z)) /\
  exists rest,
    sent (snd (getSessionId None unreachable w))
    = sent w ++
      history_request None (Some (JStr "s1")) (JNum 5%Z) :: rest.
Proof.
  intros w.
  assert (Hk : localStorage w !! SESSION_STORAGE_KEY
               = Some ("s1" +:+ "/history?limit=" +:+ to_string (JNum 5%Z)))
    by reflexivity.
  split; [exact Hk|].
  exact (stored_id_is_spliced_unescaped None unreachable w "s1" (JNum 5%Z) Hk).
Defined.


Lemma fetchHistory_counts_records_witness :
  let two := [JObj [("type", JStr "view")]; JObj [("type", JStr "search")]] in
  let server := by_method (history_reply (JArr two)) not_found not_found in
  let w := browser_with_id "s1" in
  getHistory None server (number 5) w
    = (inr (Some (JArr two)), snd (getHistory None server (number 5) w)) /\
  exists st',
    fst (Dashboard.fetchHistory ascii_length None server Dashboard.initial w)
      = inr st' /\
    Dashboard.count (Dashboard.sessionStats st') = Some (JNum 2%Z).
Proof.
  intros two server w.
  assert (Heq : getHistory None server (number 5) w
                = (inr (Some (JArr two)),
                   snd (getHistory None server (number 5) w)))
    by reflexivity.
  split; [exact Heq|].
  destruct (fetchHistory_counts_records ascii_length None server
              Dashboard.initial w _ two Heq) as (st' & Hrun & _ & Hcount).
  exists st'. rewrite Hrun. split; [reflexivity|exact Hcount].
Defined.

Lemma handleCheck_always_stops_loading_witness :
  let idle := ModuleC.mkState None None false (None : jsval Z) in
  let chosen :=
    ModuleC.mkState (Some "face.png") (Some "blob:1") false (None : jsval Z) in
  ModuleC.handleCheck null_read (Axios_error timed_out) idle
    = (idle, ModuleC.mkEffects [] [] [] []) /\
  ModuleC.loading
    (fst (ModuleC.handleCheck null_read (Axios_error timed_out) chosen))
    = false.
Proof.
  intros idle chosen.
  destruct (handleCheck_always_stops_loading null_read (Axios_error timed_out)
              idle) as (Hidle & _).
  destruct (handleCheck_always_stops_loading null_read (Axios_error timed_out)
              chosen) as (_ & Hchosen).
  split; [exact (Hidle eq_refl)|].
  exact (proj1 (Hchosen "face.png" eq_refl)).
Defined.

Lemma handleCheck_logs_or_alerts_witness :
  let chosen :=
    ModuleC.mkState (Some "face.png") (Some "blob:1") false (None : jsval Z) in
  let data : json Z := JObj [("is_real", JBool false); ("confidence", JNum 1%Z)] in
  ModuleC.selectedFile chosen = Some "face.png" /\
  ModuleC.launched (snd (ModuleC.handleCheck null_read (Axios_data data) chosen))
  = [mkLaunched (Some (JStr "detect"))
       (Some (JStr "Deepfake Analysis: face.png"))
       (Some (JObj [("is_deepfake", JBool true);
                    ("authenticity", JStr "Fake");
                    ("confidence", JNum 1%Z)]))] /\
  ModuleC.alerts (snd (ModuleC.handleCheck null_read (Axios_data data) chosen))
  = [].
Proof.
  intros chosen data.
  assert (Hfile : ModuleC.selectedFile chosen = Some "face.png") by reflexivity.
  split; [exact Hfile|]. split; [reflexivity|].
  destruct (handleCheck_logs_or_alerts null_read (Axios_data data) chosen
              "face.png" Hfile) as [(Halerts & _)|(Hnone & _)].
  - exact Halerts.
  - discriminate Hnone.
Defined.

Lemma failed_polls_never_stop_witness :
  let events :=
    [ModuleA.Tick; ModuleA.Arrive (Axios_error timed_out); ModuleA.Tick;
     ModuleA.Arrive (Axios_data JNull); ModuleA.Tick] in
  let st := ModuleA.started (Some JNull) empty_array : ModuleA.State (num := Z) in
  Forall ModuleA.harmless events /\
  ModuleA.polling (ModuleA.run ascii_length null_read "a man" events st) = true /\
  ModuleA.loading (ModuleA.run ascii_length null_read "a man" events st) = true.
Proof.
  intros events st.
  assert (Hev : Forall ModuleA.harmless events)
    by (repeat constructor).
  split; [exact Hev|].
  destruct (failed_polls_never_stop ascii_length null_read "a man" events st
              Hev) as (Hpoll & Hload & _).
  split; [exact Hpoll|exact Hload].
Defined.

Lemma polling_times_out_at_360_witness :
  let outcomes := replicate 360 processing in
  let st' :=
    ModuleA.rounds ascii_length null_read "a man" outcomes
      (ModuleA.started (Some JNull) empty_array) in
  Forall ModuleA.pending outcomes /\
  length outcomes <= 360 /\
  length outcomes = 360 /\
  ModuleA.polling st' = false /\
  ModuleA.alerts st' = ["Generation timed out. Please check backend logs."].
Proof.
  intros outcomes st'.
  assert (Hpending : Forall ModuleA.pending outcomes).
  { apply Forall_replicate. exists (Some (JStr "processing")).
    split; [reflexivity|]. split; reflexivity. }
  assert (Hlen : length outcomes = 360) by apply length_replicate.
  assert (Hle : length outcomes <= 360) by (rewrite Hlen; lia).
  split; [exact Hpending|]. split; [exact Hle|]. split; [exact Hlen|].
  destruct (polling_times_out_at_360 ascii_length null_read "a man" outcomes
              (Some JNull) empty_array Hpending Hle) as (_ & _ & _ & Hstop).
  destruct (Hstop Hlen) as (Hpoll & _ & Halerts).
  split; [exact Hpoll|exact Halerts].
Defined.

Lemma completion_logs_the_matches_shown_witness :
  let found : list (json Z) := [JObj [("id", JNum 7%Z)]; JObj [("id", JNum 9%Z)]] in
  let data := completed_with (JArr found) in
  let st := ModuleA.started (Some JNull) empty_array in
  (forall n, n <> 0%N -> num_truthy (num_of_N n : Z) = true) /\
  get_prop data "status" = inr (Some (JStr "completed")) /\
  ModuleA.launched
    (ModuleA.arrive ascii_length null_read "a man" (Axios_data data) st)
  = [mkLaunched (Some (JStr "generate")) (Some (JStr "a man"))
       (Some (JObj [("sketch_generated", JBool true);
                    ("matches_found", JNum 2%Z)]))].
Proof.
  intros found data st.
  assert (Hnum : forall n, n <> 0%N -> num_truthy (num_of_N n : Z) = true).
  { intros [|p] Hn; [done|reflexivity]. }
  assert (Hstatus : get_prop data "status" = inr (Some (JStr "completed")))
    by reflexivity.
  split; [exact Hnum|]. split; [exact Hstatus|].
  destruct (completion_logs_the_matches_shown ascii_length null_read "a man"
              data st Hnum Hstatus) as (_ & _ & _ & _ & _ & Harray & _).
  destruct (Harray found eq_refl) as (_ & Hlaunched).
  rewrite Hlaunched. reflexivity.
Defined.

Lemma hash_stays_exact_witness :
  let seed := ModuleD.lit "00123" in
  Forall ModuleD.code_unit seed /\
  (Z.of_nat (length seed) <= 4194000)%Z /\
  ModuleD.exact (ModuleD.hash_of seed).
Proof.
  intros seed.
  assert (Hseed : Forall ModuleD.code_unit seed).
  { repeat constructor; unfold ModuleD.code_unit; simpl; lia. }
  assert (Hlen : (Z.of_nat (length seed) <= 4194000)%Z) by (simpl; lia).
  split; [exact Hseed|]. split; [exact Hlen|].
  exact (proj1 (hash_stays_exact seed seed [] Hseed Hlen
                  (eq_sym (app_nil_r seed)))).
Defined.

Lemma augmented_copy_shares_base_id_witness :
  let id := ModuleD.lit "00123" in
  let ext := ModuleD.lit "png" in
  ~ ModuleD.occurs (ModuleD.lit "_aug") id /\
  ModuleD.is_extension ext = true /\
  ModuleD.getBaseId (Some (ModuleD.lit "00123_aug4.png")) = id /\
  ModuleD.getBaseId (Some (ModuleD.lit "00123.png")) = id.
Proof.
  intros id ext.
  assert (Hno : ~ ModuleD.occurs (ModuleD.lit "_aug") id).
  { intros (a & b & Heq). vm_compute in Heq.
    do 6 (destruct a as [|? a]; [discriminate Heq|]). discriminate Heq. }
  assert (Hext : ModuleD.is_extension ext = true) by reflexivity.
  split; [exact Hno|]. split; [exact Hext|].
  destruct (augmented_copy_shares_base_id id (ModuleD.lit "4") ext Hno Hext)
    as (Horig & Hcopy & _).
  split; [exact Hcopy|exact Horig].
Defined.

Lemma crime_counts_add_up_witness :
  let suspects : list (jsval Z) :=
    [Some (JStr "Theft"); None; Some (JStr "Fraud"); Some (JStr "Theft")] in
  Forall (fun c => ModuleD.inherited (ModuleD.crime_of c) = false) suspects /\
  ModuleD.total (ModuleD.crime_distribution suspects) = 4 /\
  ModuleD.crime_distribution suspects !! "Theft" = Some (ModuleD.Count 2) /\
  ModuleD.crime_distribution suspects !! "Unknown" = Some (ModuleD.Count 1).
Proof.
  intros suspects.
  assert (Hplain : Forall (fun c => ModuleD.inherited (ModuleD.crime_of c) = false)
                     suspects) by (repeat constructor).
  split; [exact Hplain|].
  destruct (crime_counts_add_up suspects Hplain) as (Htotal & Hcount).
  split; [exact Htotal|].
  split; [exact (Hcount "Theft")|exact (Hcount "Unknown")].
Defined.

(** A crime type that is the name of an inherited member is not counted. *)
Example inherited_name_is_not_counted :
  ModuleD.crime_distribution
    [Some (JStr "constructor"); Some (JStr "constructor") : jsval Z]
  !! "constructor" = Some ModuleD.Garbage /\
  ModuleD.total
    (ModuleD.crime_distribution
       [Some (JStr "constructor"); Some (JStr "__proto__") : jsval Z]) = 0.
Proof. split; reflexivity. Qed.

Lemma interim_results_keep_description_witness :
  let results :=
    [ModuleA.mkResult true "a tall man"; ModuleA.mkResult false "with a";
     ModuleA.mkResult false "with a scar"] in
  Forall (fun r => ModuleA.isFinal r = false) (drop 1 results) /\
  ModuleA.onresult (fun s => s) 1 results "seen at night" = "seen at night".
Proof.
  intros results.
  assert (Hall : Forall (fun r => ModuleA.isFinal r = false) (drop 1 results))
    by (repeat constructor).
  split; [exact Hall|].
  exact (proj1 (interim_results_keep_description (fun s => s) 1 results
                  "seen at night") Hall).
Defined.
